(** * Smart garden simulator: a shallow embedding of the simulation engine

    The development follows the Python sources of [garden_env]:
    [weather.py], [plant.py], [objects.py] and [simulator.py].  Every
    Python class is a module holding a record [t] for the instance
    attributes and one function per method; a method that mutates [self]
    returns the new object next to its result.

    Conventions.
    - Python floats are exact rationals ([Q]); [max]/[min] are [Qmax]/[Qmin],
      which pick the same argument as Python's on ties.
    - Python ints that count steps are [Z] ([//] is [Z.div], [%] is
      [Z.modulo]); pot numbers index lists and are [nat].
    - The process-wide generator of the [random] module is a state of an
      abstract type [G] threaded through every function that draws from
      it (class [PRNG]); [math.sin] is an abstract bounded function
      (class [Libm]).
    - [config.json] is not part of the sources: every constant read from
      it is a field of [Config.t]. *)

From stdpp Require Import gmap list.
From Stdlib Require Import QArith Qminmax Qabs Lqa ZArith Lia.

Open Scope Q_scope.

(** ** Numeric helpers *)

Definition Qlt_bool (x y : Q) : bool := negb (Qle_bool y x).
Definition Qgt_bool (x y : Q) : bool := Qlt_bool y x.
Definition Qge_bool (x y : Q) : bool := Qle_bool y x.

Lemma Qlt_bool_iff (x y : Q) : Qlt_bool x y = true <-> x < y.
Proof.
  unfold Qlt_bool. rewrite negb_true_iff.
  destruct (Qle_bool y x) eqn:E.
  - apply Qle_bool_iff in E. split; [discriminate | lra].
  - split; [intros _ | reflexivity].
    destruct (Qlt_le_dec x y) as [Hlt | Hle]; [exact Hlt |].
    apply Qle_bool_iff in Hle. congruence.
Qed.

Lemma Qlt_bool_false_iff (x y : Q) : Qlt_bool x y = false <-> y <= x.
Proof.
  unfold Qlt_bool. rewrite negb_false_iff. apply Qle_bool_iff.
Qed.

Lemma Qle_bool_false_iff (x y : Q) : Qle_bool x y = false <-> y < x.
Proof.
  rewrite <- Qlt_bool_iff. unfold Qlt_bool.
  destruct (Qle_bool x y); simpl; split; congruence.
Qed.

(** [max(lo, min(hi, x))], the clamp idiom used all over the sources. *)
Definition clamp (lo hi x : Q) : Q := Qmax lo (Qmin hi x).

Lemma clamp_bounds (lo hi x : Q) :
  lo <= hi -> lo <= clamp lo hi x /\ clamp lo hi x <= hi.
Proof.
  intros Hlh. unfold clamp. split.
  - apply Q.le_max_l.
  - apply Q.max_lub; [exact Hlh | apply Q.le_min_l].
Qed.

(** Sum of a list of rationals, Python's [sum(...)] starting from [0]. *)
Definition Qsum (l : list Q) : Q := fold_left Qplus l 0.

(** ** The random source and the math library *)

(** The [random] module keeps one hidden generator.  [G] is the type of
    its states; each operation returns the drawn value and the next
    state.  The laws are the ranges documented for the four functions the
    simulator calls. *)
Class PRNG (G : Type) := {
  rng_random : G -> Q * G;
  rng_gauss : Q -> Q -> G -> Q * G;
  rng_randint : Z -> Z -> G -> Z * G;
  rng_choice : nat -> G -> nat * G;
  rng_random_range : forall g, 0 <= fst (rng_random g) /\ fst (rng_random g) < 1;
  rng_randint_range :
    forall a b g, (a <= b)%Z -> (a <= fst (rng_randint a b g) <= b)%Z;
  rng_choice_range :
    forall n g, (0 < n)%nat -> (fst (rng_choice n g) < n)%nat
}.

(** [sin_turns x] stands for [math.sin(2 * math.pi * x)]. *)
Class Libm := {
  sin_turns : Q -> Q;
  sin_turns_bound : forall x, -1 <= sin_turns x /\ sin_turns x <= 1
}.

(** Computations that draw from the generator. *)
Definition Rand (G A : Type) : Type := G -> A * G.

Definition ret {G A : Type} (a : A) : Rand G A := fun g => (a, g).

Definition bind {G A B : Type} (c : Rand G A) (k : A -> Rand G B) : Rand G B :=
  fun g => let (a, g') := c g in k a g'.

Notation "'let*' x ':=' c 'in' k" := (bind c (fun x => k))
  (at level 10, x pattern, c at level 100, k at level 200).

(** [for x in xs: acc = f(acc, x)] with draws inside the body. *)
Fixpoint for_each {G A B : Type} (f : A -> B -> Rand G A) (acc : A) (xs : list B)
  : Rand G A :=
  match xs with
  | [] => ret acc
  | x :: xs' => let* acc' := f acc x in for_each f acc' xs'
  end.

(** A generator that replays a tape of raw words, for running the model
    on concrete inputs.  A word [w] gives [random() = (w mod 1000)/1000],
    [randint(a, b) = a + w mod (b - a + 1)], the index [w mod n] for
    [choice], and the standard normal deviate [(w mod 2001 - 1000)/250]
    for [gauss]; an exhausted tape keeps giving the word [0]. *)
Module Tape.

Definition t := list N.

Definition next (g : t) : N * t :=
  match g with
  | [] => (0%N, [])
  | w :: g' => (w, g')
  end.

Definition random (g : t) : Q * t :=
  let (w, g') := next g in (Z.of_N (w mod 1000) # 1000, g').

Definition gauss (mu sigma : Q) (g : t) : Q * t :=
  let (w, g') := next g in
  (mu + ((Z.of_N (w mod 2001) - 1000) # 250) * sigma, g').

Definition randint (a b : Z) (g : t) : Z * t :=
  let (w, g') := next g in ((a + Z.of_N w mod (b - a + 1))%Z, g').

Definition choice (n : nat) (g : t) : nat * t :=
  let (w, g') := next g in (N.to_nat (w mod N.of_nat n), g').

Lemma random_range g : 0 <= fst (random g) /\ fst (random g) < 1.
Proof.
  unfold random. destruct (next g) as [w g']. cbn [fst].
  assert (Hw : (w mod 1000 < 1000)%N) by (apply N.mod_upper_bound; discriminate).
  generalize dependent (w mod 1000)%N. intros r Hr.
  unfold Qle, Qlt. cbn [Qnum Qden]. lia.
Qed.

Lemma randint_range a b g :
  (a <= b)%Z -> (a <= fst (randint a b g) <= b)%Z.
Proof.
  intros Hab. unfold randint. destruct (next g) as [w g']. cbn [fst].
  pose proof (Z.mod_pos_bound (Z.of_N w) (b - a + 1)). lia.
Qed.

Lemma choice_range n g : (0 < n)%nat -> (fst (choice n g) < n)%nat.
Proof.
  intros Hn. unfold choice. destruct (next g) as [w g']. cbn [fst].
  assert (Hw : (w mod N.of_nat n < N.of_nat n)%N) by (apply N.mod_upper_bound; lia).
  lia.
Qed.

End Tape.

#[export] Instance tape_prng : PRNG Tape.t := {|
  rng_random := Tape.random;
  rng_gauss := Tape.gauss;
  rng_randint := Tape.randint;
  rng_choice := Tape.choice;
  rng_random_range := Tape.random_range;
  rng_randint_range := Tape.randint_range;
  rng_choice_range := Tape.choice_range
|}.

(** A sine table that is exact at the origin and flat elsewhere; enough
    to run the model on the first step of a run, where both sine
    arguments are [0]. *)
Definition flat_sin (x : Q) : Q := 0.

Lemma flat_sin_bound (x : Q) : -1 <= flat_sin x /\ flat_sin x <= 1.
Proof. unfold flat_sin. split; lra. Qed.

Definition flat_libm : Libm :=
  {| sin_turns := flat_sin; sin_turns_bound := flat_sin_bound |}.

(** ** Configuration ([config.json]) *)

Module Config.

(** One entry of [config["plants"]].  The two flowering fields are
    read by the nasturtium only. *)
Record plant := mk_plant {
  soil_threshold : Q;
  nutrient_threshold : Q;
  critical_soil : Q;
  critical_nutrient : Q;
  growth_rate_max : Q;
  harvest_day : Q;
  flower_stage_soil_threshold : Q;
  flower_stage_day : Q
}.

Record t := mk {
  (* plants *)
  lettuce : plant;
  spinach : plant;
  radish : plant;
  swiss_chard : plant;
  nasturtium : plant;
  (* devices *)
  water_effect : Q;
  fertilizer_effect : Q;
  failure_probability : Q;
  sensor_error_probability : Q;
  (* soil *)
  pot_capacity_ml : Q;
  evaporation_base_rate : Q;
  nutrient_consumption_rate : Q;
  (* weather.netherlands_july *)
  temp_mean : Q;
  temp_amplitude : Q;
  temp_noise_std : Q;
  rain_probability_per_day : Q;
  (* evaluation.scoring_weights *)
  total_biomass : Q;
  plant_health : Q;
  (* evaluation.penalties *)
  plant_death : Q;
  overwatering : Q;
  overfertilizing : Q;
  (* simulation *)
  random_seed : Z;
  total_steps : Z
}.

(** The same document with another [simulation.random_seed]. *)
Definition with_random_seed (seed : Z) (c : t) : t :=
  mk (lettuce c) (spinach c) (radish c) (swiss_chard c) (nasturtium c)
     (water_effect c) (fertilizer_effect c) (failure_probability c)
     (sensor_error_probability c) (pot_capacity_ml c)
     (evaporation_base_rate c) (nutrient_consumption_rate c)
     (temp_mean c) (temp_amplitude c) (temp_noise_std c)
     (rain_probability_per_day c) (total_biomass c) (plant_health c)
     (plant_death c) (overwatering c) (overfertilizing c)
     seed (total_steps c).

End Config.

(** ** Weather ([weather.py]) *)

Module WeatherState.
Record t := mk {
  temperature : Q;
  is_raining : bool;
  rainfall_amount : Q;
  step : Z
}.
End WeatherState.

Module WeatherGenerator.

Record t := mk {
  temp_mean : Q;
  temp_amplitude : Q;
  temp_noise_std : Q;
  rain_probability : Q;
  rain_amount : Q;
  current_step : Z;
  weather_history : list WeatherState.t
}.

(** [__init__(config, random_seed)]: the seeding call is commented out
    in the source, so [random_seed] is accepted and not used. *)
Definition init (config : Config.t) (random_seed : Z) : t :=
  mk (Config.temp_mean config) (Config.temp_amplitude config)
     (Config.temp_noise_std config) (Config.rain_probability_per_day config)
     8 0%Z [].

Section Draws.
Context {G : Type} `{PRNG G} `{Libm}.

Definition _generate_temperature (self : t) (step : Z) (time_of_day : Z)
  : Rand G Q :=
  let daily_cycle :=
    temp_amplitude self * sin_turns (inject_Z time_of_day / 24) in
  let seasonal_drift := 0.5 * sin_turns (inject_Z step / 240) in
  let* noise := rng_gauss 0 (temp_noise_std self) in
  let temperature := temp_mean self + daily_cycle + seasonal_drift + noise in
  ret (clamp 5 40 temperature).

Definition _generate_rainfall (self : t) : Rand G (bool * Q) :=
  let rain_prob_per_step := rain_probability self / 8 in
  let* r := rng_random in
  if Qlt_bool r rain_prob_per_step then ret (true, rain_amount self)
  else ret (false, 0).

Definition generate_weather (self : t) (step : Z)
  : Rand G (WeatherState.t * t) :=
  let time_of_day := ((step * 3) mod 24)%Z in
  let* temperature := _generate_temperature self step time_of_day in
  let* (is_raining, rainfall_amount) := _generate_rainfall self in
  let weather_state :=
    WeatherState.mk temperature is_raining rainfall_amount step in
  ret (weather_state,
       mk (temp_mean self) (temp_amplitude self) (temp_noise_std self)
          (rain_probability self) (rain_amount self)
          step (weather_history self ++ [weather_state])).
End Draws.

End WeatherGenerator.

Module WeatherSimulator.

Record t := mk {
  weather_generator : WeatherGenerator.t;
  current_weather : option WeatherState.t
}.

Definition init (config : Config.t) : t :=
  mk (WeatherGenerator.init config (Config.random_seed config)) None.

Section Draws.
Context {G : Type} `{PRNG G} `{Libm}.

Definition step_weather (self : t) (step : Z) : Rand G (WeatherState.t * t) :=
  let* (w, gen) := WeatherGenerator.generate_weather (weather_generator self) step in
  ret (w, mk gen (Some w)).
End Draws.

End WeatherSimulator.

(** ** Plants ([plant.py]) *)

Inductive Phenology :=
  SEEDLING | VEGETATIVE | FLOWERING | HARVESTABLE | DORMANT | DEAD.

#[export] Instance Phenology_eq_dec : EqDecision Phenology.
Proof. solve_decision. Defined.

(** The five subclasses of [Plant]; the tag selects the overridden
    methods the way the class of the object does. *)
Inductive Species := Lettuce | Spinach | Radish | SwissChard | Nasturtium.

#[export] Instance Species_eq_dec : EqDecision Species.
Proof. solve_decision. Defined.

Module PlantStatus.
Record t := mk {
  soil_moisture : Q;
  nutrient_level : Q;
  health : Q;
  biomass : Q;
  phenology : Phenology;
  days_alive : Z;
  stress_level : Q
}.
End PlantStatus.

(** The [soil_state] dictionary handed to [Plant.update]: either key may
    be missing, [dict.get] then falls back on the plant's own value. *)
Module SoilDict.
Record t := mk {
  moisture : option Q;
  nutrients : option Q
}.
End SoilDict.

Module Plant.

(** Instance attributes of [Plant] and of its subclasses.  The last
    three exist on the nasturtium only; the other species carry unused
    defaults. *)
Record t := mk {
  species : Species;
  pot_id : nat;
  soil_moisture : Q;
  nutrient_level : Q;
  health : Q;
  biomass : Q;
  phenology : Phenology;
  soil_threshold : Q;
  nutrient_threshold : Q;
  critical_soil : Q;
  critical_nutrient : Q;
  growth_rate_max : Q;
  harvest_day : Q;
  days_alive : Z;
  step_count : Z;
  stress_level : Q;
  flower_stage_soil_threshold : Q;
  flower_stage_day : Q;
  is_flowering_stage : bool
}.

(** Attribute assignments [self.x = v]. *)
Definition set_soil_moisture (v : Q) (p : t) : t :=
  mk (species p) (pot_id p) v (nutrient_level p) (health p) (biomass p)
     (phenology p) (soil_threshold p) (nutrient_threshold p) (critical_soil p)
     (critical_nutrient p) (growth_rate_max p) (harvest_day p) (days_alive p)
     (step_count p) (stress_level p) (flower_stage_soil_threshold p)
     (flower_stage_day p) (is_flowering_stage p).

Definition set_nutrient_level (v : Q) (p : t) : t :=
  mk (species p) (pot_id p) (soil_moisture p) v (health p) (biomass p)
     (phenology p) (soil_threshold p) (nutrient_threshold p) (critical_soil p)
     (critical_nutrient p) (growth_rate_max p) (harvest_day p) (days_alive p)
     (step_count p) (stress_level p) (flower_stage_soil_threshold p)
     (flower_stage_day p) (is_flowering_stage p).

Definition set_health (v : Q) (p : t) : t :=
  mk (species p) (pot_id p) (soil_moisture p) (nutrient_level p) v (biomass p)
     (phenology p) (soil_threshold p) (nutrient_threshold p) (critical_soil p)
     (critical_nutrient p) (growth_rate_max p) (harvest_day p) (days_alive p)
     (step_count p) (stress_level p) (flower_stage_soil_threshold p)
     (flower_stage_day p) (is_flowering_stage p).

Definition set_biomass (v : Q) (p : t) : t :=
  mk (species p) (pot_id p) (soil_moisture p) (nutrient_level p) (health p) v
     (phenology p) (soil_threshold p) (nutrient_threshold p) (critical_soil p)
     (critical_nutrient p) (growth_rate_max p) (harvest_day p) (days_alive p)
     (step_count p) (stress_level p) (flower_stage_soil_threshold p)
     (flower_stage_day p) (is_flowering_stage p).

Definition set_phenology (v : Phenology) (p : t) : t :=
  mk (species p) (pot_id p) (soil_moisture p) (nutrient_level p) (health p)
     (biomass p) v (soil_threshold p) (nutrient_threshold p) (critical_soil p)
     (critical_nutrient p) (growth_rate_max p) (harvest_day p) (days_alive p)
     (step_count p) (stress_level p) (flower_stage_soil_threshold p)
     (flower_stage_day p) (is_flowering_stage p).

Definition set_soil_threshold (v : Q) (p : t) : t :=
  mk (species p) (pot_id p) (soil_moisture p) (nutrient_level p) (health p)
     (biomass p) (phenology p) v (nutrient_threshold p) (critical_soil p)
     (critical_nutrient p) (growth_rate_max p) (harvest_day p) (days_alive p)
     (step_count p) (stress_level p) (flower_stage_soil_threshold p)
     (flower_stage_day p) (is_flowering_stage p).

Definition set_days_alive (v : Z) (p : t) : t :=
  mk (species p) (pot_id p) (soil_moisture p) (nutrient_level p) (health p)
     (biomass p) (phenology p) (soil_threshold p) (nutrient_threshold p)
     (critical_soil p) (critical_nutrient p) (growth_rate_max p)
     (harvest_day p) v (step_count p) (stress_level p)
     (flower_stage_soil_threshold p) (flower_stage_day p)
     (is_flowering_stage p).

Definition set_step_count (v : Z) (p : t) : t :=
  mk (species p) (pot_id p) (soil_moisture p) (nutrient_level p) (health p)
     (biomass p) (phenology p) (soil_threshold p) (nutrient_threshold p)
     (critical_soil p) (critical_nutrient p) (growth_rate_max p)
     (harvest_day p) (days_alive p) v (stress_level p)
     (flower_stage_soil_threshold p) (flower_stage_day p)
     (is_flowering_stage p).

Definition set_stress_level (v : Q) (p : t) : t :=
  mk (species p) (pot_id p) (soil_moisture p) (nutrient_level p) (health p)
     (biomass p) (phenology p) (soil_threshold p) (nutrient_threshold p)
     (critical_soil p) (critical_nutrient p) (growth_rate_max p)
     (harvest_day p) (days_alive p) (step_count p) v
     (flower_stage_soil_threshold p) (flower_stage_day p)
     (is_flowering_stage p).

Definition set_is_flowering_stage (v : bool) (p : t) : t :=
  mk (species p) (pot_id p) (soil_moisture p) (nutrient_level p) (health p)
     (biomass p) (phenology p) (soil_threshold p) (nutrient_threshold p)
     (critical_soil p) (critical_nutrient p) (growth_rate_max p)
     (harvest_day p) (days_alive p) (step_count p) (stress_level p)
     (flower_stage_soil_threshold p) (flower_stage_day p) v.

(** [Plant.__init__(plant_config, pot_id)], with the subclass tag. *)
Definition init (sp : Species) (plant_config : Config.plant) (pot_id : nat) : t :=
  mk sp pot_id 0.5 0.5 100 0.1 SEEDLING
     (Config.soil_threshold plant_config)
     (Config.nutrient_threshold plant_config)
     (Config.critical_soil plant_config)
     (Config.critical_nutrient plant_config)
     (Config.growth_rate_max plant_config)
     (Config.harvest_day plant_config)
     0%Z 0%Z 0
     (match sp with
      | Nasturtium => Config.flower_stage_soil_threshold plant_config
      | _ => 0
      end)
     (match sp with
      | Nasturtium => Config.flower_stage_day plant_config
      | _ => 0
      end)
     false.

(** [Plant._update_phenology] *)
Definition _update_phenology_base (self : t) : t :=
  if Qle_bool (health self) 0 then set_phenology DEAD self
  else if Qlt_bool (inject_Z (days_alive self)) 7 then
    set_phenology SEEDLING self
  else if Qlt_bool (inject_Z (days_alive self)) (harvest_day self * 0.7) then
    set_phenology VEGETATIVE self
  else if Qlt_bool (inject_Z (days_alive self)) (harvest_day self * 0.9) then
    set_phenology FLOWERING self
  else if Qlt_bool (inject_Z (days_alive self)) (harvest_day self * 1.2) then
    set_phenology HARVESTABLE self
  else set_phenology DORMANT self.

(** [SwissChard._update_phenology] *)
Definition _update_phenology_swiss_chard (self : t) : t :=
  if Qle_bool (health self) 0 then set_phenology DEAD self
  else if (days_alive self <? 10)%Z then set_phenology SEEDLING self
  else if (days_alive self <? 20)%Z then set_phenology VEGETATIVE self
  else set_phenology HARVESTABLE self.

(** [Nasturtium._update_phenology] *)
Definition _update_phenology_nasturtium (self : t) : t :=
  if Qle_bool (health self) 0 then set_phenology DEAD self
  else if (days_alive self <? 10)%Z then
    set_is_flowering_stage false (set_phenology SEEDLING self)
  else if (days_alive self <? 18)%Z then
    set_is_flowering_stage false (set_phenology VEGETATIVE self)
  else if Qlt_bool (inject_Z (days_alive self)) (flower_stage_day self) then
    set_is_flowering_stage false (set_phenology FLOWERING self)
  else
    let self := set_phenology HARVESTABLE self in
    let self := set_is_flowering_stage true self in
    set_soil_threshold (flower_stage_soil_threshold self) self.

Definition _update_phenology (self : t) : t :=
  match species self with
  | SwissChard => _update_phenology_swiss_chard self
  | Nasturtium => _update_phenology_nasturtium self
  | _ => _update_phenology_base self
  end.

(** The body shared by [Plant._update_health_simple] and
    [Radish._update_health_simple]: they differ in the two moisture
    penalties only ([5.0]/[1.0] against [3.0]/[0.5]). *)
Definition _update_health_with (severe mild : Q) (self : t) : t :=
  let health_change := 0 in
  let health_change :=
    if Qlt_bool (soil_moisture self) (critical_soil self) then
      health_change - severe
    else if Qlt_bool (soil_moisture self) (soil_threshold self) then
      health_change - mild
    else health_change in
  let health_change :=
    if Qlt_bool (nutrient_level self) (critical_nutrient self) then
      health_change - 5
    else if Qlt_bool (nutrient_level self) (nutrient_threshold self) then
      health_change - 1
    else health_change in
  let health_change :=
    if Qgt_bool (nutrient_level self) 1.2 then health_change - 10
    else health_change in
  let health_change :=
    if Qgt_bool (soil_moisture self) 1 then health_change - 8
    else health_change in
  let health_change :=
    if Qge_bool (soil_moisture self) (soil_threshold self)
       && Qge_bool (nutrient_level self) (nutrient_threshold self)
    then health_change + 3
    else if Qeq_bool health_change 0 then health_change + 1
    else health_change in
  let self := set_health (health self + health_change) self in
  let self := set_health (Qmax 0 (Qmin 100 (health self))) self in
  if Qle_bool (health self) 0 then set_phenology DEAD self else self.

Definition _update_health_simple (self : t) : t :=
  match species self with
  | Radish => _update_health_with 3 0.5 self
  | _ => _update_health_with 5 1 self
  end.

(** [Plant._update_growth_simple] *)
Definition _update_growth_simple (self : t) : t :=
  if Qle_bool (health self) 20 then self
  else
    let base_growth := growth_rate_max self in
    let stage_factor :=
      match phenology self with
      | SEEDLING => 0.6
      | HARVESTABLE => 0.3
      | DORMANT => 0
      | _ => 1
      end in
    let condition_factor := 1 in
    let condition_factor :=
      if Qlt_bool (soil_moisture self) (soil_threshold self)
         || Qlt_bool (nutrient_level self) (nutrient_threshold self)
      then 0.5 else condition_factor in
    let condition_factor :=
      if Qlt_bool (soil_moisture self) (critical_soil self)
         || Qlt_bool (nutrient_level self) (critical_nutrient self)
      then 0.1 else condition_factor in
    let health_factor := health self / 100 in
    let growth := base_growth * stage_factor * condition_factor * health_factor in
    set_biomass (biomass self + growth) self.

(** [Plant._update_stress_simple] *)
Definition _update_stress_simple (self : t) : t :=
  let stress_factors := [] in
  let stress_factors :=
    stress_factors ++
    [if Qlt_bool (soil_moisture self) (critical_soil self) then 0.9
     else if Qlt_bool (soil_moisture self) (soil_threshold self) then 0.4
     else 0] in
  let stress_factors :=
    stress_factors ++
    [if Qlt_bool (nutrient_level self) (critical_nutrient self) then 0.9
     else if Qlt_bool (nutrient_level self) (nutrient_threshold self) then 0.4
     else 0] in
  set_stress_level
    (match stress_factors with
     | [] => 0
     | _ => Qsum stress_factors / inject_Z (Z.of_nat (length stress_factors))
     end) self.

(** [Plant.get_status] *)
Definition get_status (self : t) : PlantStatus.t :=
  PlantStatus.mk (soil_moisture self) (nutrient_level self) (health self)
                 (biomass self) (phenology self) (days_alive self)
                 (stress_level self).

(** [Plant.update(weather_state, soil_state, step)]: the snapshot it
    returns and the plant after the call. *)
Definition update (self : t) (weather_state : WeatherState.t)
           (soil_state : SoilDict.t) (step : Z) : PlantStatus.t * t :=
  let self := set_step_count step self in
  let self := set_days_alive (step / 8)%Z self in
  let self :=
    set_soil_moisture
      (default (soil_moisture self) (SoilDict.moisture soil_state)) self in
  let self :=
    set_nutrient_level
      (default (nutrient_level self) (SoilDict.nutrients soil_state)) self in
  let self := _update_phenology self in
  let self := _update_health_simple self in
  let self := _update_growth_simple self in
  let self := _update_stress_simple self in
  (get_status self, self).

(** [Plant.get_harvest_yield] *)
Definition get_harvest_yield (self : t) : Q :=
  if decide (phenology self = HARVESTABLE) then
    let yield_factor := (health self / 100) * Qmin 1 (biomass self / 5) in
    biomass self * yield_factor
  else 0.

(** [Plant.is_alive] *)
Definition is_alive (self : t) : bool :=
  bool_decide (phenology self <> DEAD) && Qgt_bool (health self) 0.

End Plant.

(** [create_plant(plant_type, pot_id)].  Every subclass constructor opens
    the fixed path [garden_env/config.json], whatever file the simulator
    itself was given: [default_config] is the content of that file.
    Unknown type names, for which the source raises [ValueError], are
    excluded by the type [Species]. *)
Definition create_plant (default_config : Config.t) (plant_type : Species)
           (pot_id : nat) : Plant.t :=
  match plant_type with
  | Lettuce => Plant.init Lettuce (Config.lettuce default_config) pot_id
  | Spinach => Plant.init Spinach (Config.spinach default_config) pot_id
  | Radish => Plant.init Radish (Config.radish default_config) pot_id
  | SwissChard => Plant.init SwissChard (Config.swiss_chard default_config) pot_id
  | Nasturtium => Plant.init Nasturtium (Config.nasturtium default_config) pot_id
  end.

(** ** Devices ([objects.py]) *)

Module SensorReading.
Record t := mk {
  soil_moisture : option Q;
  nutrient_level : option Q;
  temperature : option Q;
  timestamp : Z
}.
End SensorReading.

Module WaterPump.

Record t := mk {
  water_effect : Q;
  total_water_used : Q;
  operation_count : Z;
  is_failed : bool;
  failure_end_step : Z;
  failure_probability : Q
}.

(** [WaterPump.__init__]: the fault probability is the one configured
    for the sensors. *)
Definition init (config : Config.t) : t :=
  mk (Config.water_effect config) 0 0%Z false 0%Z
     (Config.failure_probability config).

Definition set_is_failed (v : bool) (p : t) : t :=
  mk (water_effect p) (total_water_used p) (operation_count p) v
     (failure_end_step p) (failure_probability p).

Definition set_failure_end_step (v : Z) (p : t) : t :=
  mk (water_effect p) (total_water_used p) (operation_count p) (is_failed p)
     v (failure_probability p).

Definition add_usage (effect : Q) (p : t) : t :=
  mk (water_effect p) (total_water_used p + effect) (operation_count p + 1)%Z
     (is_failed p) (failure_end_step p) (failure_probability p).

Section Draws.
Context {G : Type} `{PRNG G}.

(** [WaterPump.irrigate(pot_id, duration_hours, current_step)] *)
Definition irrigate (self : t) (pot_id : nat) (duration_hours : Q)
           (current_step : Z) : Rand G (Q * t) :=
  let self :=
    if is_failed self && (failure_end_step self <=? current_step)%Z
    then set_is_failed false self else self in
  let* self :=
    if negb (is_failed self) then
      let* r := rng_random in
      if Qlt_bool r (failure_probability self) then
        ret (set_failure_end_step 1 (set_is_failed true self))
      else ret self
    else ret self in
  if is_failed self then ret (0, self)
  else
    let water_effect := water_effect self in
    ret (water_effect, add_usage water_effect self).
End Draws.

End WaterPump.

Module Fertilizer.

Record t := mk {
  fertilizer_effect : Q;
  total_fertilizer_used : Q;
  application_count : Z;
  is_failed : bool;
  failure_end_step : Z;
  failure_probability : Q
}.

Definition init (config : Config.t) : t :=
  mk (Config.fertilizer_effect config) 0 0%Z false 0%Z
     (Config.failure_probability config).

Definition set_is_failed (v : bool) (p : t) : t :=
  mk (fertilizer_effect p) (total_fertilizer_used p) (application_count p) v
     (failure_end_step p) (failure_probability p).

Definition set_failure_end_step (v : Z) (p : t) : t :=
  mk (fertilizer_effect p) (total_fertilizer_used p) (application_count p)
     (is_failed p) v (failure_probability p).

Definition add_usage (effect : Q) (p : t) : t :=
  mk (fertilizer_effect p) (total_fertilizer_used p + effect)
     (application_count p + 1)%Z
     (is_failed p) (failure_end_step p) (failure_probability p).

Section Draws.
Context {G : Type} `{PRNG G}.

(** [Fertilizer.apply_fertilizer(pot_id, amount, current_step)] *)
Definition apply_fertilizer (self : t) (pot_id : nat) (amount : Q)
           (current_step : Z) : Rand G (Q * t) :=
  let self :=
    if is_failed self && (failure_end_step self <=? current_step)%Z
    then set_is_failed false self else self in
  let* self :=
    if negb (is_failed self) then
      let* r := rng_random in
      if Qlt_bool r (failure_probability self) then
        let* d := rng_randint 3 8 in
        ret (set_failure_end_step (current_step + d) (set_is_failed true self))
      else ret self
    else ret self in
  if is_failed self then ret (0, self)
  else
    let nutrient_increase := fertilizer_effect self in
    ret (nutrient_increase, add_usage nutrient_increase self).
End Draws.

End Fertilizer.

(** The dictionary returned by [SensorArray.get_readings]: [pots] lists
    the values under the keys [pot_0], [pot_1], ... in that order and
    [environment] is the value under the key of that name. *)
Module Readings.
Record t := mk {
  pots : list SensorReading.t;
  environment : SensorReading.t
}.
End Readings.

Module SensorArray.

Record t := mk {
  sensor_failures : gmap nat Z;
  failure_probability : Q;
  sensor_error_probability : Q;
  reading_count : Z
}.

Definition init (config : Config.t) : t :=
  mk ∅ (Config.failure_probability config)
     (Config.sensor_error_probability config) 0%Z.

Definition set_sensor_failures (v : gmap nat Z) (s : t) : t :=
  mk v (failure_probability s) (sensor_error_probability s) (reading_count s).

(** First loop pair of [get_readings]: collect the pots whose fault is
    over, then delete them. *)
Definition recovered_sensors (failures : gmap nat Z) (current_step : Z)
  : list nat :=
  (filter (fun kv => (kv.2 <=? current_step)%Z = true) (map_to_list failures)).*1.

Definition recover (failures : gmap nat Z) (current_step : Z) : gmap nat Z :=
  fold_left (fun m pot_id => delete pot_id m)
            (recovered_sensors failures current_step) failures.

Section Draws.
Context {G : Type} `{PRNG G}.

(** Second loop: a pot that is not failed draws a new fault; the
    draw is skipped for a pot that is failed already. *)
Definition trigger_one (self : t) (current_step : Z)
           (failures : gmap nat Z) (pot_id : nat) : Rand G (gmap nat Z) :=
  match failures !! pot_id with
  | Some _ => ret failures
  | None =>
      let* r := rng_random in
      if Qlt_bool r (failure_probability self) then
        let failure_duration := 1%Z in
        ret (<[pot_id := (current_step + failure_duration)%Z]> failures)
      else ret failures
  end.

Definition trigger (self : t) (n_plants : nat) (current_step : Z)
           (failures : gmap nat Z) : Rand G (gmap nat Z) :=
  for_each (trigger_one self current_step) failures (seq 0 n_plants).

(** [random.choice([0.95, 0.05])] *)
Definition choice_extreme : Rand G Q :=
  let* i := rng_choice 2 in
  ret (match i with O => 0.95 | _ => 0.05 end).

(** [SensorArray._generate_faulty_reading] *)
Definition _generate_faulty_reading (plant : Plant.t)
           (weather_state : WeatherState.t) (current_step : Z)
  : Rand G SensorReading.t :=
  let* fault_type := rng_choice 3 in
  match fault_type with
  | O =>                                                  (* "stuck" *)
      ret (SensorReading.mk (Some 0.5) (Some 0.5)
             (Some (WeatherState.temperature weather_state)) current_step)
  | S O =>                                                (* "drift" *)
      let* r := rng_random in
      let drift_factor := 0.3 + 0.4 * r in
      ret (SensorReading.mk
             (Some (Qmax 0 (Qmin 1 (Plant.soil_moisture plant * drift_factor))))
             (Some (Qmax 0 (Qmin 1 (Plant.nutrient_level plant * drift_factor))))
             (Some (WeatherState.temperature weather_state)) current_step)
  | _ =>                                                  (* "spike" *)
      let* m := choice_extreme in
      let* n := choice_extreme in
      ret (SensorReading.mk (Some m) (Some n)
             (Some (WeatherState.temperature weather_state)) current_step)
  end.

(** [SensorArray._generate_error_reading] *)
Definition _generate_error_reading (plant : Plant.t)
           (weather_state : WeatherState.t) (current_step : Z)
  : Rand G SensorReading.t :=
  let* r := rng_random in
  if Qlt_bool r 0.5 then
    let* m := choice_extreme in
    let* n := choice_extreme in
    ret (SensorReading.mk (Some m) (Some n)
           (Some (WeatherState.temperature weather_state)) current_step)
  else
    ret (SensorReading.mk None None
           (Some (WeatherState.temperature weather_state)) current_step).

(** Body of the third loop, for pot [i] holding [plant]. *)
Definition read_one (self : t) (failures : gmap nat Z)
           (weather_state : WeatherState.t) (current_step : Z)
           (readings : list SensorReading.t) (ip : nat * Plant.t)
  : Rand G (list SensorReading.t) :=
  let (i, plant) := ip in
  match failures !! i with
  | Some _ =>
      let* r := _generate_faulty_reading plant weather_state current_step in
      ret (readings ++ [r])
  | None =>
      let* e := rng_random in
      if Qlt_bool e (sensor_error_probability self) then
        let* r := _generate_error_reading plant weather_state current_step in
        ret (readings ++ [r])
      else
        ret (readings ++
             [SensorReading.mk (Some (Plant.soil_moisture plant))
                (Some (Plant.nutrient_level plant))
                (Some (WeatherState.temperature weather_state))
                current_step])
  end.

(** [SensorArray.get_readings(plants, weather_state, current_step)] *)
Definition get_readings (self : t) (plants : list Plant.t)
           (weather_state : WeatherState.t) (current_step : Z)
  : Rand G (Readings.t * t) :=
  let failures := recover (sensor_failures self) current_step in
  let* failures := trigger self (length plants) current_step failures in
  let* pots :=
    for_each (read_one self failures weather_state current_step) []
             (zip (seq 0 (length plants)) plants) in
  let environment :=
    SensorReading.mk None None
      (Some (WeatherState.temperature weather_state)) current_step in
  ret (Readings.mk pots environment,
       mk failures (failure_probability self)
          (sensor_error_probability self) (reading_count self + 1)%Z).
End Draws.

End SensorArray.

Inductive ActionKind := Water | Fertilize.

(** One entry of [DeviceManager.operation_log]; [requested] is the value
    under [requested_duration] or [requested_amount]. *)
Module Operation.
Record t := mk {
  step : Z;
  action : ActionKind;
  pot_id : nat;
  requested : Q;
  actual_effect : Q;
  success : bool
}.
End Operation.

Module DeviceManager.

Record t := mk {
  water_pump : WaterPump.t;
  fertilizer : Fertilizer.t;
  sensors : SensorArray.t;
  operation_log : list Operation.t
}.

Definition init (config : Config.t) : t :=
  mk (WaterPump.init config) (Fertilizer.init config)
     (SensorArray.init config) [].

Section Draws.
Context {G : Type} `{PRNG G}.

(** [DeviceManager.execute_watering(pot_id, duration, current_step)] *)
Definition execute_watering (self : t) (pot_id : nat) (duration : Q)
           (current_step : Z) : Rand G (Q * t) :=
  let* (water_effect, pump) :=
    WaterPump.irrigate (water_pump self) pot_id duration current_step in
  ret (water_effect,
       mk pump (fertilizer self) (sensors self)
          (operation_log self ++
           [Operation.mk current_step Water pot_id duration water_effect
                         (Qgt_bool water_effect 0)])).

(** [DeviceManager.execute_fertilizing(pot_id, amount, current_step)] *)
Definition execute_fertilizing (self : t) (pot_id : nat) (amount : Q)
           (current_step : Z) : Rand G (Q * t) :=
  let* (nutrient_effect, fert) :=
    Fertilizer.apply_fertilizer (fertilizer self) pot_id amount current_step in
  ret (nutrient_effect,
       mk (water_pump self) fert (sensors self)
          (operation_log self ++
           [Operation.mk current_step Fertilize pot_id amount nutrient_effect
                         (Qgt_bool nutrient_effect 0)])).

(** [DeviceManager.get_sensor_readings] *)
Definition get_sensor_readings (self : t) (plants : list Plant.t)
           (weather_state : WeatherState.t) (current_step : Z)
  : Rand G (Readings.t * t) :=
  let* (readings, sens) :=
    SensorArray.get_readings (sensors self) plants weather_state current_step in
  ret (readings,
       mk (water_pump self) (fertilizer self) sens (operation_log self)).
End Draws.

End DeviceManager.

(** ** Soil, history, scoring and the step loop ([simulator.py]) *)

Module SoilState.
Record t := mk {
  moisture : Q;
  nutrients : Q;
  pot_id : nat
}.
End SoilState.

(** One request of the policy: [{"pot_id": .., "duration": ..}] under
    [water], [{"pot_id": .., "amount": ..}] under [fertilize]. *)
Module Decision.
Record t := mk {
  pot_id : nat;
  quantity : Q
}.
End Decision.

Module Decisions.
Record t := mk {
  water : list Decision.t;
  fertilize : list Decision.t
}.
End Decisions.

(** One executed request, as recorded by [_execute_device_actions]. *)
Module DeviceAction.
Record t := mk {
  pot_id : nat;
  step : Z;
  requested : Q;
  actual_effect : Q;
  success : bool
}.
End DeviceAction.

Module DeviceActions.
Record t := mk {
  water : list DeviceAction.t;
  fertilize : list DeviceAction.t
}.
End DeviceActions.

Module StepResult.
(** [soil_states] is the value of the pots when the step ended (the
    source stores references to the live [SoilState] objects). *)
Record t := mk {
  step : Z;
  weather : WeatherState.t;
  soil_states : list SoilState.t;
  plant_states : list PlantStatus.t;
  sensor_readings : Readings.t;
  student_decisions : Decisions.t;
  device_actions : DeviceActions.t;
  score : Q
}.
End StepResult.

Module SoilManager.

Record t := mk {
  soil_states : list SoilState.t;
  pot_capacity : Q;
  evaporation_rate : Q;
  nutrient_consumption_rate : Q;
  water_per_action : Q;
  fertilizer_per_action : Q
}.

Definition init (config : Config.t) : t :=
  mk (map (fun i => SoilState.mk 0.5 0.5 i) (seq 0 5))
     (Config.pot_capacity_ml config)
     (Config.evaporation_base_rate config)
     (Config.nutrient_consumption_rate config)
     (Config.water_effect config)
     (Config.fertilizer_effect config).

(** The loop [for action in ...: if action targets the pot and has a
    positive effect: total += effect]. *)
Definition effects_on (pot_id : nat) (actions : list DeviceAction.t) : Q :=
  fold_left
    (fun total action =>
       if bool_decide (DeviceAction.pot_id action = pot_id)
          && Qgt_bool (DeviceAction.actual_effect action) 0
       then total + DeviceAction.actual_effect action
       else total)
    actions 0.

(** [SoilManager._update_moisture_simple] *)
Definition _update_moisture_simple (self : t) (soil : SoilState.t)
           (weather : WeatherState.t) (device_actions : DeviceActions.t)
           (plant : option Plant.t) : SoilState.t :=
  let base_consumption := evaporation_rate self in
  let temp_factor := 1 + Qmax 0 ((WeatherState.temperature weather - 25) * 0.02) in
  let plant_consumption :=
    match plant with
    | Some p =>
        if Plant.is_alive p
        then 0.01 * (Plant.biomass p / 5) * (Plant.health p / 100)
        else 0
    | None => 0
    end in
  let total_consumption := base_consumption * temp_factor + plant_consumption in
  let rainfall_input := if WeatherState.is_raining weather then 0.15 else 0 in
  let irrigation :=
    effects_on (SoilState.pot_id soil) (DeviceActions.water device_actions) in
  let moisture_change := rainfall_input + irrigation - total_consumption in
  let moisture := SoilState.moisture soil + moisture_change in
  SoilState.mk (Qmax 0 (Qmin 1.3 moisture)) (SoilState.nutrients soil)
               (SoilState.pot_id soil).

(** [SoilManager._update_nutrients_simple] *)
Definition _update_nutrients_simple (self : t) (soil : SoilState.t)
           (weather : WeatherState.t) (device_actions : DeviceActions.t)
           (plant : option Plant.t) : SoilState.t :=
  let plant_uptake :=
    match plant with
    | Some p =>
        if Plant.is_alive p
        then
          let base_uptake := nutrient_consumption_rate self in
          base_uptake * (Plant.health p / 100)
        else 0
    | None => 0
    end in
  let rain_loss := if WeatherState.is_raining weather then 0.05 else 0 in
  let fertilizer_input :=
    effects_on (SoilState.pot_id soil) (DeviceActions.fertilize device_actions) in
  let nutrient_change := fertilizer_input - plant_uptake - rain_loss in
  let nutrients := SoilState.nutrients soil + nutrient_change in
  SoilState.mk (SoilState.moisture soil) (Qmax 0 (Qmin 1.5 nutrients))
               (SoilState.pot_id soil).

(** One pot of [update_soil]: moisture first, nutrients next. *)
Definition update_pot (self : t) (weather : WeatherState.t)
           (device_actions : DeviceActions.t) (plants : list Plant.t)
           (i : nat) (soil : SoilState.t) : SoilState.t :=
  let soil := _update_moisture_simple self soil weather device_actions (plants !! i) in
  _update_nutrients_simple self soil weather device_actions (plants !! i).

(** [SoilManager.update_soil(weather, device_actions, plants)] *)
Definition update_soil (self : t) (weather : WeatherState.t)
           (device_actions : DeviceActions.t) (plants : list Plant.t) : t :=
  mk (imap (update_pot self weather device_actions plants) (soil_states self))
     (pot_capacity self) (evaporation_rate self)
     (nutrient_consumption_rate self) (water_per_action self)
     (fertilizer_per_action self).

(** [SoilManager.get_soil_state(pot_id)]; [None] is the [IndexError]. *)
Definition get_soil_state (self : t) (pot_id : nat) : option SoilState.t :=
  soil_states self !! pot_id.

Definition get_all_soil_states (self : t) : list SoilState.t :=
  soil_states self.

End SoilManager.

Module SensorHistoryEntry.
Record t := mk {
  step : Z;
  soil_moisture : option Q;
  nutrient_level : option Q;
  temperature : option Q
}.
End SensorHistoryEntry.

Module ActionHistoryEntry.
Record t := mk {
  step : Z;
  action : ActionKind
}.
End ActionHistoryEntry.

Module DailySummary.
Record t := mk {
  day : Z;
  avg_temperature : Q;
  total_rainfall : Q;
  avg_plant_health : Q;
  total_water_actions : nat;
  total_fertilize_actions : nat
}.
End DailySummary.

(** [l[-n:]] *)
Definition last_n {A : Type} (n : nat) (l : list A) : list A :=
  drop (length l - n) l.

Definition Qof_nat (n : nat) : Q := inject_Z (Z.of_nat n).

Module StateManager.

Record t := mk {
  simulation_history : list StepResult.t;
  daily_summaries : list DailySummary.t;
  sensor_history : gmap nat (list SensorHistoryEntry.t);
  action_history : gmap nat (list ActionHistoryEntry.t)
}.

(** [StateManager.__init__]; the wall-clock [start_time] is left out,
    it feeds the reported run time only. *)
Definition init : t := mk [] [] ∅ ∅.

(** Sensor part of [log_step], for the reading of pot [pot_id]. *)
Definition log_reading (step : Z) (history : gmap nat (list SensorHistoryEntry.t))
           (ir : nat * SensorReading.t) : gmap nat (list SensorHistoryEntry.t) :=
  let (pot_id, reading) := ir in
  let entries := default [] (history !! pot_id) in
  let entries :=
    entries ++
    [SensorHistoryEntry.mk step (SensorReading.soil_moisture reading)
       (SensorReading.nutrient_level reading)
       (SensorReading.temperature reading)] in
  let entries :=
    if (24 <? length entries)%nat then drop 1 entries else entries in
  <[pot_id := entries]> history.

(** Action part of [log_step], for pot [pot_id]. *)
Definition log_actions (step : Z) (decisions : Decisions.t)
           (history : gmap nat (list ActionHistoryEntry.t)) (pot_id : nat)
  : gmap nat (list ActionHistoryEntry.t) :=
  let entries := default [] (history !! pot_id) in
  let entries :=
    fold_left
      (fun acc d =>
         if bool_decide (Decision.pot_id d = pot_id)
         then acc ++ [ActionHistoryEntry.mk step Water] else acc)
      (Decisions.water decisions) entries in
  let entries :=
    fold_left
      (fun acc d =>
         if bool_decide (Decision.pot_id d = pot_id)
         then acc ++ [ActionHistoryEntry.mk step Fertilize] else acc)
      (Decisions.fertilize decisions) entries in
  let entries :=
    if (48 <? length entries)%nat then last_n 48 entries else entries in
  <[pot_id := entries]> history.

(** [StateManager._create_daily_summary(step)] *)
Definition _create_daily_summary (history : list StepResult.t) (step : Z)
  : DailySummary.t :=
  let day := (step / 8)%Z in
  let daily_steps := last_n 8 history in
  let avg_temp :=
    Qsum (map (fun s => WeatherState.temperature (StepResult.weather s)) daily_steps)
    / Qof_nat (length daily_steps) in
  let total_rain :=
    Qsum (map (fun s =>
                 if WeatherState.is_raining (StepResult.weather s)
                 then WeatherState.rainfall_amount (StepResult.weather s)
                 else 0) daily_steps) in
  let plant_health := map StepResult.plant_states daily_steps in
  let avg_plant_health :=
    Qsum (map PlantStatus.health (concat plant_health))
    / (Qof_nat (length plant_health) * 5) in
  let water_actions :=
    sum_list (map (fun s => length (Decisions.water (StepResult.student_decisions s)))
                  daily_steps) in
  let fertilize_actions :=
    sum_list (map (fun s => length (Decisions.fertilize (StepResult.student_decisions s)))
                  daily_steps) in
  DailySummary.mk day avg_temp total_rain avg_plant_health
                  water_actions fertilize_actions.

(** [StateManager.log_step(step_result)] *)
Definition log_step (self : t) (step_result : StepResult.t) : t :=
  let history := simulation_history self ++ [step_result] in
  let step := StepResult.step step_result in
  let readings := Readings.pots (StepResult.sensor_readings step_result) in
  let sensor_history :=
    fold_left (log_reading step) (zip (seq 0 (length readings)) readings)
              (sensor_history self) in
  let action_history :=
    fold_left (log_actions step (StepResult.student_decisions step_result))
              (seq 0 5) (action_history self) in
  let daily_summaries :=
    if (step mod 8 =? 7)%Z
    then daily_summaries self ++ [_create_daily_summary history step]
    else daily_summaries self in
  mk history daily_summaries sensor_history action_history.

Definition get_sensor_history (self : t) (pot_id : nat)
  : list SensorHistoryEntry.t :=
  default [] (sensor_history self !! pot_id).

Definition get_action_history (self : t) (pot_id : nat)
  : list ActionHistoryEntry.t :=
  default [] (action_history self !! pot_id).

End StateManager.

Module ScoreRecord.
Record t := mk {
  step : Z;
  base_score : Q;
  penalty : Q;
  final_score : Q;
  water_actions : nat;
  fertilize_actions : nat;
  biomass : Q;
  health : Q
}.
End ScoreRecord.

Module EvaluationEngine.

Record t := mk {
  w_total_biomass : Q;       (* weights["total_biomass"] *)
  w_plant_health : Q;        (* weights["plant_health"] *)
  p_plant_death : Q;         (* penalties["plant_death"] *)
  p_overwatering : Q;        (* penalties["overwatering"] *)
  p_overfertilizing : Q;     (* penalties["overfertilizing"] *)
  score_history : list ScoreRecord.t
}.

Definition init (config : Config.t) : t :=
  mk (Config.total_biomass config) (Config.plant_health config)
     (Config.plant_death config) (Config.overwatering config)
     (Config.overfertilizing config) [].

(** [EvaluationEngine._calculate_biomass_score] *)
Definition _calculate_biomass_score (plants : list Plant.t) : Q :=
  let total_biomass :=
    Qsum (map Plant.biomass (filter (fun p => Plant.is_alive p = true) plants)) in
  Qmin 100 ((total_biomass / 50) * 100).

(** [EvaluationEngine._calculate_health_score] *)
Definition _calculate_health_score (plants : list Plant.t) : Q :=
  match plants with
  | [] => 0
  | _ =>
      let alive_plants := filter (fun p => Plant.is_alive p = true) plants in
      match alive_plants with
      | [] => 0
      | _ =>
          Qsum (map Plant.health alive_plants) / Qof_nat (length alive_plants)
      end
  end.

(** [EvaluationEngine._calculate_penalties_enhanced] *)
Definition _calculate_penalties_enhanced (self : t) (plants : list Plant.t)
           (decisions : Decisions.t) (device_actions : DeviceActions.t) : Q :=
  let penalty := 0 in
  let dead_plants :=
    length (filter (fun p => Plant.is_alive p = false) plants) in
  let penalty := penalty + Qof_nat dead_plants * p_plant_death self in
  let water_actions := length (DeviceActions.water device_actions) in
  let penalty :=
    if (10 <? water_actions)%nat
    then penalty + (Qof_nat water_actions - 10) * p_overwatering self
    else penalty in
  let fertilize_actions := length (DeviceActions.fertilize device_actions) in
  let penalty :=
    if (15 <? fertilize_actions)%nat
    then penalty + (Qof_nat fertilize_actions - 15) * p_overfertilizing self
    else penalty in
  fold_left
    (fun penalty plant =>
       if Qgt_bool (Plant.soil_moisture plant) 1 then
         let excess := Plant.soil_moisture plant - 1 in
         penalty + excess * 50
       else penalty)
    plants penalty.

(** [EvaluationEngine.calculate_score(step, plants, decisions,
    device_actions)]: the score and the engine with the new record. *)
Definition calculate_score (self : t) (step : Z) (plants : list Plant.t)
           (decisions : Decisions.t) (device_actions : DeviceActions.t)
  : Q * t :=
  let biomass_score := _calculate_biomass_score plants in
  let health_score := _calculate_health_score plants in
  let base_score :=
    biomass_score * w_total_biomass self + health_score * w_plant_health self in
  let penalty := _calculate_penalties_enhanced self plants decisions device_actions in
  let final_score := Qmax 0 (base_score + penalty) in
  let score_record :=
    ScoreRecord.mk step base_score penalty final_score
      (length (DeviceActions.water device_actions))
      (length (DeviceActions.fertilize device_actions))
      biomass_score health_score in
  (final_score,
   mk (w_total_biomass self) (w_plant_health self) (p_plant_death self)
      (p_overwatering self) (p_overfertilizing self)
      (score_history self ++ [score_record])).

End EvaluationEngine.

(** The state dictionary handed to the two policy functions. *)
Module Observation.
Record t := mk {
  pot_id : nat;
  step : Z;
  day : Z;
  time_of_day : Z;
  sensor_data : SensorReading.t;
  environment : SensorReading.t;
  Rain : bool;
  plant_type : Species;
  plant_status : PlantStatus.t;
  sensor_history : list SensorHistoryEntry.t;
  action_history : list ActionHistoryEntry.t
}.
End Observation.

(** A policy function returns a truth value or raises ([None]). *)
Definition PolicyFn := Observation.t -> option bool.

(** The part of the dictionary built by [_generate_final_report] that
    holds the run statistics ([individual_plants], the two frequencies
    and the nested summaries are left out). *)
Module Report.
Record t := mk {
  total_steps : nat;
  total_days : nat;
  final_score : Q;
  max_score : Q;
  avg_score : Q;
  survival_rate : Q;
  total_biomass : Q;
  average_health : Q;
  total_water_actions : nat;
  total_fertilize_actions : nat;
  successful_water_actions : nat;
  successful_fertilize_actions : nat;
  water_success_rate : Q;
  fertilize_success_rate : Q;
  score_trend : list Q
}.
End Report.

Module GardenSimulator.

Record t := mk {
  config : Config.t;
  weather_sim : WeatherSimulator.t;
  device_manager : DeviceManager.t;
  soil_manager : SoilManager.t;
  state_manager : StateManager.t;
  evaluator : EvaluationEngine.t;
  plants : list Plant.t;
  should_water : PolicyFn;
  should_fertilize : PolicyFn;
  current_step : Z;
  is_running : bool;
  step_results : list StepResult.t
}.

(** [GardenSimulator.__init__(config_path)]: [config] is the document
    at [config_path], [default_config] the one at the fixed path the
    plant constructors open.  The call that would seed the generator
    from [config["simulation"]["random_seed"]] is commented out in the
    source: nothing here touches the generator. *)
Definition init (config default_config : Config.t) : t :=
  mk config
     (WeatherSimulator.init config)
     (DeviceManager.init config)
     (SoilManager.init config)
     StateManager.init
     (EvaluationEngine.init config)
     [create_plant default_config Lettuce 0;
      create_plant default_config Spinach 1;
      create_plant default_config Radish 2;
      create_plant default_config SwissChard 3;
      create_plant default_config Nasturtium 4]
     (fun _ => Some false)
     (fun _ => Some false)
     0%Z false [].

(** [GardenSimulator.register_student_functions] *)
Definition register_student_functions (self : t)
           (should_water should_fertilize : PolicyFn) : t :=
  mk (config self) (weather_sim self) (device_manager self) (soil_manager self)
     (state_manager self) (evaluator self) (plants self)
     should_water should_fertilize
     (current_step self) (is_running self) (step_results self).

(** Body of the loop of [_make_student_decisions_with_history]. *)
Definition decide_pot (self : t) (sensor_readings : Readings.t)
           (weather : WeatherState.t) (decisions : Decisions.t) (pot_id : nat)
  : Decisions.t :=
  match Readings.pots sensor_readings !! pot_id, plants self !! pot_id with
  | Some reading, Some plant =>
      let state :=
        Observation.mk pot_id (current_step self) (current_step self / 8)%Z
          ((current_step self * 3) mod 24)%Z
          reading (Readings.environment sensor_readings)
          (WeatherState.is_raining weather)
          (Plant.species plant) (Plant.get_status plant)
          (StateManager.get_sensor_history (state_manager self) pot_id)
          (StateManager.get_action_history (state_manager self) pot_id) in
      match should_water self state with
      | None => decisions
      | Some sw =>
          match should_fertilize self state with
          | None => decisions
          | Some sf =>
              let water :=
                if sw then Decisions.water decisions ++ [Decision.mk pot_id 0.5]
                else Decisions.water decisions in
              let fertilize :=
                if sf then Decisions.fertilize decisions ++ [Decision.mk pot_id 1]
                else Decisions.fertilize decisions in
              Decisions.mk water fertilize
          end
      end
  | _, _ => decisions
  end.

(** [GardenSimulator._make_student_decisions_with_history] *)
Definition _make_student_decisions_with_history (self : t)
           (sensor_readings : Readings.t) (weather : WeatherState.t)
  : Decisions.t :=
  fold_left (decide_pot self sensor_readings weather) (seq 0 5)
            (Decisions.mk [] []).

(** The plant loop of [step_simulation]: push the soil values into the
    plant, apply the over-saturation damage, then update the plant. *)
Definition update_plant (soil_manager : SoilManager.t)
           (weather : WeatherState.t) (step : Z) (i : nat) (plant : Plant.t)
  : PlantStatus.t * Plant.t :=
  match SoilManager.get_soil_state soil_manager i with
  | None => (Plant.get_status plant, plant)
  | Some soil_state =>
      let plant := Plant.set_soil_moisture (SoilState.moisture soil_state) plant in
      let plant := Plant.set_nutrient_level (SoilState.nutrients soil_state) plant in
      let plant :=
        if Qgt_bool (SoilState.moisture soil_state) 1 then
          let excess_water := SoilState.moisture soil_state - 1 in
          Plant.set_health (Plant.health plant - excess_water * 20) plant
        else plant in
      let plant :=
        if Qgt_bool (SoilState.nutrients soil_state) 1.2 then
          let excess_nutrients := SoilState.nutrients soil_state - 1.2 in
          Plant.set_health (Plant.health plant - excess_nutrients * 30) plant
        else plant in
      Plant.update plant weather
        (SoilDict.mk (Some (SoilState.moisture soil_state))
                     (Some (SoilState.nutrients soil_state)))
        step
  end.

Section Draws.
Context {G : Type} `{PRNG G} `{Libm}.

(** [GardenSimulator._execute_device_actions] *)
Definition execute_water (step : Z)
           (acc : list DeviceAction.t * DeviceManager.t) (decision : Decision.t)
  : Rand G (list DeviceAction.t * DeviceManager.t) :=
  let (actions, dm) := acc in
  let pot_id := Decision.pot_id decision in
  let duration := Decision.quantity decision in
  let* (actual_effect, dm) :=
    DeviceManager.execute_watering dm pot_id duration step in
  ret (actions ++
       [DeviceAction.mk pot_id step duration actual_effect
                        (Qgt_bool actual_effect 0)], dm).

Definition execute_fertilize (step : Z)
           (acc : list DeviceAction.t * DeviceManager.t) (decision : Decision.t)
  : Rand G (list DeviceAction.t * DeviceManager.t) :=
  let (actions, dm) := acc in
  let pot_id := Decision.pot_id decision in
  let amount := Decision.quantity decision in
  let* (actual_effect, dm) :=
    DeviceManager.execute_fertilizing dm pot_id amount step in
  ret (actions ++
       [DeviceAction.mk pot_id step amount actual_effect
                        (Qgt_bool actual_effect 0)], dm).

Definition _execute_device_actions (dm : DeviceManager.t)
           (student_decisions : Decisions.t) (step : Z)
  : Rand G (DeviceActions.t * DeviceManager.t) :=
  let* (water, dm) :=
    for_each (execute_water step) ([], dm)
             (Decisions.water student_decisions) in
  let* (fertilize, dm) :=
    for_each (execute_fertilize step) ([], dm)
             (Decisions.fertilize student_decisions) in
  ret (DeviceActions.mk water fertilize, dm).

(** [GardenSimulator.step_simulation(step)] *)
Definition step_simulation (self : t) (step : Z) : Rand G (StepResult.t * t) :=
  let self :=
    mk (config self) (weather_sim self) (device_manager self)
       (soil_manager self) (state_manager self) (evaluator self)
       (plants self) (should_water self) (should_fertilize self)
       step (is_running self) (step_results self) in
  let* (weather, weather_sim) :=
    WeatherSimulator.step_weather (weather_sim self) step in
  let* (sensor_readings, dm) :=
    DeviceManager.get_sensor_readings (device_manager self) (plants self)
                                      weather step in
  let student_decisions :=
    _make_student_decisions_with_history self sensor_readings weather in
  let* (device_actions_dict, dm) :=
    _execute_device_actions dm student_decisions step in
  let soil_manager :=
    SoilManager.update_soil (soil_manager self) weather device_actions_dict
                            (plants self) in
  let updated := imap (update_plant soil_manager weather step) (plants self) in
  let plant_states := updated.*1 in
  let plants := updated.*2 in
  let (score, evaluator) :=
    EvaluationEngine.calculate_score (evaluator self) step plants
      student_decisions device_actions_dict in
  let step_result :=
    StepResult.mk step weather
      (SoilManager.get_all_soil_states soil_manager) plant_states
      sensor_readings student_decisions device_actions_dict score in
  let state_manager := StateManager.log_step (state_manager self) step_result in
  ret (step_result,
       mk (config self) weather_sim dm soil_manager state_manager evaluator
          plants (should_water self) (should_fertilize self)
          step (is_running self) (step_results self)).

(** The loop [for step in range(total_steps)] of [run_simulation]. *)
Definition run_step (self : t) (step : nat) : Rand G t :=
  let* (step_result, self) := step_simulation self (Z.of_nat step) in
  ret (mk (config self) (weather_sim self) (device_manager self)
          (soil_manager self) (state_manager self) (evaluator self)
          (plants self) (should_water self) (should_fertilize self)
          (current_step self) (is_running self)
          (step_results self ++ [step_result])).
End Draws.

(** [GardenSimulator._generate_final_report]; [None] is the dictionary
    [{"error": ...}] returned when no step was run. *)
Definition _generate_final_report (self : t) : option Report.t :=
  match last (step_results self) with
  | None => None
  | Some final_step =>
      let results := step_results self in
      let alive :=
        filter (fun p => Qgt_bool (PlantStatus.health p) 0 = true)
               (StepResult.plant_states final_step) in
      let alive_count := length alive in
      let total_biomass := Qsum (map PlantStatus.biomass alive) in
      let avg_health :=
        Qsum (map PlantStatus.health alive) / Qof_nat (Nat.max 1 alive_count) in
      let total_water_actions :=
        sum_list (map (fun s => length (Decisions.water (StepResult.student_decisions s)))
                      results) in
      let total_fertilize_actions :=
        sum_list (map (fun s => length (Decisions.fertilize (StepResult.student_decisions s)))
                      results) in
      let successful_water_actions :=
        sum_list (map (fun s =>
                         length (filter (fun a => DeviceAction.success a = true)
                                        (DeviceActions.water (StepResult.device_actions s))))
                      results) in
      let successful_fertilize_actions :=
        sum_list (map (fun s =>
                         length (filter (fun a => DeviceAction.success a = true)
                                        (DeviceActions.fertilize (StepResult.device_actions s))))
                      results) in
      let scores := map StepResult.score results in
      Some (Report.mk
              (length results)
              (length results / 8)%nat
              (StepResult.score final_step)
              (match scores with
               | [] => 0
               | s :: rest => fold_left Qmax rest s
               end)
              (match scores with
               | [] => 0
               | _ => Qsum scores / Qof_nat (length scores)
               end)
              (Qof_nat alive_count / 5)
              total_biomass
              avg_health
              total_water_actions
              total_fertilize_actions
              successful_water_actions
              successful_fertilize_actions
              (Qof_nat successful_water_actions
               / Qof_nat (Nat.max 1 total_water_actions))
              (Qof_nat successful_fertilize_actions
               / Qof_nat (Nat.max 1 total_fertilize_actions))
              (if (40 <? length scores)%nat then last_n 40 scores else scores))
  end.

Section Draws.
Context {G : Type} `{PRNG G} `{Libm}.

(** [GardenSimulator.run_simulation(total_steps)] for a run that is
    not interrupted: the simulator after the loop and the report. *)
Definition run_simulation (self : t) (total_steps : option Z)
  : Rand G (option Report.t * t) :=
  let total_steps :=
    match total_steps with
    | None => Config.total_steps (config self)
    | Some n => n
    end in
  let self :=
    mk (config self) (weather_sim self) (device_manager self)
       (soil_manager self) (state_manager self) (evaluator self)
       (plants self) (should_water self) (should_fertilize self)
       (current_step self) true [] in
  let* self := for_each run_step self (seq 0 (Z.to_nat total_steps)) in
  let self :=
    mk (config self) (weather_sim self) (device_manager self)
       (soil_manager self) (state_manager self) (evaluator self)
       (plants self) (should_water self) (should_fertilize self)
       (current_step self) false (step_results self) in
  ret (_generate_final_report self, self).
End Draws.

End GardenSimulator.

(** * Properties *)

(** ** Plants *)

Section PlantFacts.

Import Plant.

Lemma health_set_phenology v p : health (set_phenology v p) = health p.
Proof. reflexivity. Qed.

(** The health update leaves a clamped health behind and marks the
    plant dead when that health is not positive; it changes nothing
    else but the phenology. *)
Lemma update_health_with_shape severe mild p :
  exists h,
    health (_update_health_with severe mild p) = Qmax 0 (Qmin 100 h)
    /\ phenology (_update_health_with severe mild p)
       = (if Qle_bool (Qmax 0 (Qmin 100 h)) 0 then DEAD else phenology p).
Proof.
  unfold _update_health_with. lazy zeta.
  match goal with
  | |- context [set_health (health p + ?hc) p] => generalize hc
  end.
  intros hc. exists (health p + hc). cbn [health set_health].
  destruct (Qle_bool (Qmax 0 (Qmin 100 (health p + hc))) 0); split; reflexivity.
Qed.

Lemma update_health_simple_shape p :
  exists h,
    health (_update_health_simple p) = Qmax 0 (Qmin 100 h)
    /\ phenology (_update_health_simple p)
       = (if Qle_bool (Qmax 0 (Qmin 100 h)) 0 then DEAD else phenology p).
Proof.
  unfold _update_health_simple.
  destruct (species p); apply update_health_with_shape.
Qed.

Lemma growth_keeps_health p : health (_update_growth_simple p) = health p.
Proof. unfold _update_growth_simple. destruct (Qle_bool (health p) 20); reflexivity. Qed.

Lemma growth_keeps_phenology p :
  phenology (_update_growth_simple p) = phenology p.
Proof. unfold _update_growth_simple. destruct (Qle_bool (health p) 20); reflexivity. Qed.

(** The plant once [update] has stored the step and the soil values,
    before the four physiological updates. *)
Definition absorbed (self : t) (soil_state : SoilDict.t) (step : Z) : t :=
  let self := set_step_count step self in
  let self := set_days_alive (step / 8)%Z self in
  let self :=
    set_soil_moisture
      (default (soil_moisture self) (SoilDict.moisture soil_state)) self in
  set_nutrient_level
    (default (nutrient_level self) (SoilDict.nutrients soil_state)) self.

Lemma absorbed_health self soil step : health (absorbed self soil step) = health self.
Proof. reflexivity. Qed.

Lemma stress_keeps_health p : health (_update_stress_simple p) = health p.
Proof. reflexivity. Qed.

Lemma stress_keeps_phenology p :
  phenology (_update_stress_simple p) = phenology p.
Proof. reflexivity. Qed.

Lemma update_unfold self w soil step :
  update self w soil step
  = (get_status
       (_update_stress_simple
          (_update_growth_simple
             (_update_health_simple
                (_update_phenology (absorbed self soil step))))),
     _update_stress_simple
       (_update_growth_simple
          (_update_health_simple
             (_update_phenology (absorbed self soil step))))).
Proof. reflexivity. Qed.

Lemma update_snapshot self w soil step :
  let self2 := _update_health_simple (_update_phenology (absorbed self soil step)) in
  PlantStatus.health (update self w soil step).1 = health self2
  /\ PlantStatus.phenology (update self w soil step).1 = phenology self2
  /\ health (update self w soil step).2 = health self2
  /\ phenology (update self w soil step).2 = phenology self2.
Proof.
  intros self2. rewrite update_unfold. fold self2.
  generalize self2. intros q. cbn [fst snd].
  change (PlantStatus.health (get_status ?x)) with (health x).
  change (PlantStatus.phenology (get_status ?x)) with (phenology x).
  rewrite stress_keeps_health, stress_keeps_phenology,
    growth_keeps_health, growth_keeps_phenology.
  repeat split.
Qed.

End PlantFacts.

(** A plant driven by a given sequence of soil readings, one [update]
    per step starting at [step]: the snapshots returned, oldest first. *)
Fixpoint plant_trace (self : Plant.t) (weather : WeatherState.t) (step : Z)
         (soils : list SoilDict.t) : list PlantStatus.t :=
  match soils with
  | [] => []
  | soil :: rest =>
      let (status, self) := Plant.update self weather soil step in
      status :: plant_trace self weather (step + 1) rest
  end.

Definition sample_plant_config : Config.plant :=
  Config.mk_plant 0.4 0.3 0.2 0.15 0.05 30 0.6 25.

Definition mild_weather : WeatherState.t := WeatherState.mk 20 false 0 0%Z.

Definition dry_soil : SoilDict.t := SoilDict.mk (Some 0) (Some 0).
Definition good_soil : SoilDict.t := SoilDict.mk (Some 0.6) (Some 0.6).

(** Ten steps without water or nutrients, then two steps of good soil. *)
Definition neglect_then_care : list SoilDict.t :=
  replicate 10 dry_soil ++ [good_soil; good_soil].

(** The plant left by the same sequence of updates. *)
Fixpoint plant_after (self : Plant.t) (weather : WeatherState.t) (step : Z)
         (soils : list SoilDict.t) : Plant.t :=
  match soils with
  | [] => self
  | soil :: rest =>
      plant_after (Plant.update self weather soil step).2 weather (step + 1) rest
  end.

(** A lettuce that got neither water nor nutrients for ten steps. *)
Definition starved_lettuce : Plant.t :=
  plant_after (Plant.init Lettuce sample_plant_config 0) mild_weather 0
              (replicate 10 dry_soil).

(** A soil manager whose pot 0 holds good soil. *)
Definition tended_soil : SoilManager.t :=
  SoilManager.mk [SoilState.mk 0.6 0.6 0] 1000 0.02 0.01 0.3 0.2.

Lemma update_status_health self w soil step :
  let status := (Plant.update self w soil step).1 in
  0 <= PlantStatus.health status /\ PlantStatus.health status <= 100
  /\ (PlantStatus.health status <= 0 -> PlantStatus.phenology status = DEAD).
Proof.
  intros status. subst status.
  destruct (update_snapshot self w soil step) as (Hh & Hp & _).
  rewrite Hh, Hp.
  match goal with
  | |- context [Plant._update_health_simple ?q] =>
      destruct (update_health_simple_shape q) as (h & Hh' & Hp')
  end.
  rewrite Hh', Hp'.
  pose proof (clamp_bounds 0 100 h ltac:(lra)) as [Hlo Hhi]. unfold clamp in *.
  repeat split; try assumption.
  intros Hle. apply Qle_bool_iff in Hle. rewrite Hle. reflexivity.
Qed.

(** After every update the health is within [0, 100], and a plant whose
    health is not positive is reported dead. *)
Theorem plant_update_health_clamped self w soil step :
  let status := (Plant.update self w soil step).1 in
  0 <= PlantStatus.health status /\ PlantStatus.health status <= 100
  /\ (PlantStatus.health status <= 0 -> PlantStatus.phenology status = DEAD).
Proof. exact (update_status_health self w soil step). Qed.

(** Whatever the species, the phenology update marks a plant dead when
    its health is not positive. *)
Lemma update_phenology_dead self :
  Plant.health self <= 0 ->
  Plant.phenology (Plant._update_phenology self) = DEAD.
Proof.
  intros Hle. apply Qle_bool_iff in Hle.
  unfold Plant._update_phenology, Plant._update_phenology_base,
    Plant._update_phenology_swiss_chard, Plant._update_phenology_nasturtium.
  destruct (Plant.species self); rewrite Hle; reflexivity.
Qed.

(** A plant that enters [update] with a health that is not positive is
    reported dead by that call, whatever the soil and the species. *)
Lemma plant_update_dead_on_entry self w soil step :
  Plant.health self <= 0 ->
  PlantStatus.phenology (Plant.update self w soil step).1 = DEAD.
Proof.
  intros Hle.
  destruct (update_snapshot self w soil step) as (_ & Hp & _).
  rewrite Hp.
  match goal with
  | |- context [Plant._update_health_simple (Plant._update_phenology ?q)] =>
      destruct (update_health_simple_shape (Plant._update_phenology q))
        as (h & _ & Hp');
      rewrite Hp'; rewrite (update_phenology_dead q)
  end.
  - destruct (Qle_bool _ _); reflexivity.
  - rewrite absorbed_health. exact Hle.
Qed.

Lemma plant_update_dead_on_entry_witness :
  Plant.health starved_lettuce <= 0
  /\ PlantStatus.phenology
       (Plant.update starved_lettuce mild_weather good_soil 10).1 = DEAD.
Proof.
  split.
  - vm_compute. discriminate.
  - apply (plant_update_dead_on_entry starved_lettuce mild_weather good_soil 10).
    vm_compute. discriminate.
Defined.

(** C1 (evaluation of the code): a lettuce left without water and
    nutrients dies at its tenth update; two updates with good soil later
    its phenology is [SEEDLING] again, so the dead stage is left. *)
Lemma dead_plant_returns_to_seedling :
  map PlantStatus.phenology
      (plant_trace (Plant.init Lettuce sample_plant_config 0) mild_weather 0
                   neglect_then_care)
  = replicate 9 SEEDLING ++ [DEAD; DEAD; SEEDLING].
Proof. vm_compute. reflexivity. Qed.

(** C2 (evaluation of the code): in the plant loop of the step, a dead
    lettuce standing in good soil yields a snapshot whose phenology is
    [DEAD] while its health is 3. *)
Lemma dead_snapshot_has_positive_health :
  let status :=
    (GardenSimulator.update_plant tended_soil mild_weather 10 0 starved_lettuce).1 in
  Plant.phenology starved_lettuce = DEAD
  /\ PlantStatus.phenology status = DEAD
  /\ PlantStatus.health status == 3.
Proof. vm_compute. repeat split. Qed.

(** ** Soil *)

Lemma update_moisture_range self soil w da plant :
  0 <= SoilState.moisture (SoilManager._update_moisture_simple self soil w da plant)
  <= 1.3.
Proof.
  unfold SoilManager._update_moisture_simple. cbn [SoilState.moisture].
  apply (clamp_bounds 0 1.3). lra.
Qed.

Lemma update_nutrients_range self soil w da plant :
  0 <= SoilState.nutrients (SoilManager._update_nutrients_simple self soil w da plant)
  <= 1.5.
Proof.
  unfold SoilManager._update_nutrients_simple. cbn [SoilState.nutrients].
  apply (clamp_bounds 0 1.5). lra.
Qed.

(** C4: after [update_soil], whatever the weather, the executed actions
    and the plants, every pot has its moisture in [0, 1.3] and its
    nutrients in [0, 1.5]. *)
Theorem soil_update_clamped self w da plants :
  Forall (fun soil =>
            0 <= SoilState.moisture soil <= 1.3
            /\ 0 <= SoilState.nutrients soil <= 1.5)
         (SoilManager.soil_states (SoilManager.update_soil self w da plants)).
Proof.
  apply Forall_lookup_2. intros i soil Hi.
  unfold SoilManager.update_soil in Hi. cbn [SoilManager.soil_states] in Hi.
  rewrite list_lookup_imap in Hi.
  destruct (SoilManager.soil_states self !! i) as [soil0 |]; [| discriminate].
  injection Hi as <-. unfold SoilManager.update_pot. split.
  - unfold SoilManager._update_nutrients_simple at 1 2. cbn [SoilState.moisture].
    apply update_moisture_range.
  - apply update_nutrients_range.
Qed.

(** ** Pump and dispenser *)

Section DeviceFacts.
Context {G : Type} `{PRNG G}.

Lemma random_not_below_zero (g : G) (p : Q) :
  p == 0 -> Qlt_bool (rng_random g).1 p = false.
Proof.
  intros Hp. apply Qlt_bool_false_iff.
  destruct (rng_random_range g) as [Hr _]. rewrite Hp. exact Hr.
Qed.

(** While the fault lasts the pump neither draws nor changes. *)
Lemma irrigate_while_failed self pot_id duration step g :
  WaterPump.is_failed self = true ->
  (step < WaterPump.failure_end_step self)%Z ->
  WaterPump.irrigate self pot_id duration step g = (0, self, g).
Proof.
  intros Hf Hlt. unfold WaterPump.irrigate, bind, ret.
  rewrite Hf. replace (WaterPump.failure_end_step self <=? step)%Z with false
    by (symmetry; apply Z.leb_gt; exact Hlt).
  cbn [andb negb]. rewrite Hf. cbn [negb]. rewrite Hf. reflexivity.
Qed.

Lemma apply_fertilizer_while_failed self pot_id amount step g :
  Fertilizer.is_failed self = true ->
  (step < Fertilizer.failure_end_step self)%Z ->
  Fertilizer.apply_fertilizer self pot_id amount step g = (0, self, g).
Proof.
  intros Hf Hlt. unfold Fertilizer.apply_fertilizer, bind, ret.
  rewrite Hf. replace (Fertilizer.failure_end_step self <=? step)%Z with false
    by (symmetry; apply Z.leb_gt; exact Hlt).
  cbn [andb negb]. rewrite Hf. cbn [negb]. rewrite Hf. reflexivity.
Qed.

(** A call on a pump that is operational, or whose fault is over, is
    decided by one fresh draw. *)
Lemma irrigate_fresh_draw self pot_id duration step g :
  WaterPump.is_failed self = false
  \/ (WaterPump.failure_end_step self <= step)%Z ->
  let (r, g') := rng_random g in
  let ready := WaterPump.set_is_failed false self in
  WaterPump.irrigate self pot_id duration step g
  = if Qlt_bool r (WaterPump.failure_probability self)
    then (0, WaterPump.set_failure_end_step 1 (WaterPump.set_is_failed true ready), g')
    else (WaterPump.water_effect self,
          WaterPump.add_usage (WaterPump.water_effect self) ready, g').
Proof.
  intros Hready. destruct (rng_random g) as [r g'] eqn:Hr.
  unfold WaterPump.irrigate, bind, ret.
  assert (Hself :
    (if WaterPump.is_failed self && (WaterPump.failure_end_step self <=? step)%Z
     then WaterPump.set_is_failed false self else self)
    = WaterPump.set_is_failed false self).
  { destruct self as [we tw oc f e p]. cbn in *.
    destruct Hready as [-> | Hle]; [reflexivity |].
    apply Z.leb_le in Hle. rewrite Hle. destruct f; reflexivity. }
  rewrite Hself. cbn [WaterPump.is_failed WaterPump.set_is_failed negb].
  rewrite Hr. cbn [WaterPump.failure_probability WaterPump.set_is_failed].
  destruct (Qlt_bool r (WaterPump.failure_probability self)); reflexivity.
Qed.

Lemma apply_fertilizer_fresh_draw self pot_id amount step g :
  Fertilizer.is_failed self = false
  \/ (Fertilizer.failure_end_step self <= step)%Z ->
  let (r, g1) := rng_random g in
  let (d, g2) := rng_randint 3 8 g1 in
  let ready := Fertilizer.set_is_failed false self in
  Fertilizer.apply_fertilizer self pot_id amount step g
  = if Qlt_bool r (Fertilizer.failure_probability self)
    then (0, Fertilizer.set_failure_end_step (step + d)
               (Fertilizer.set_is_failed true ready), g2)
    else (Fertilizer.fertilizer_effect self,
          Fertilizer.add_usage (Fertilizer.fertilizer_effect self) ready, g1).
Proof.
  intros Hready. destruct (rng_random g) as [r g1] eqn:Hr.
  destruct (rng_randint 3 8 g1) as [d g2] eqn:Hd.
  unfold Fertilizer.apply_fertilizer, bind, ret.
  assert (Hself :
    (if Fertilizer.is_failed self && (Fertilizer.failure_end_step self <=? step)%Z
     then Fertilizer.set_is_failed false self else self)
    = Fertilizer.set_is_failed false self).
  { destruct self as [we tw oc f e p]. cbn in *.
    destruct Hready as [-> | Hle]; [reflexivity |].
    apply Z.leb_le in Hle. rewrite Hle. destruct f; reflexivity. }
  rewrite Hself. cbn [Fertilizer.is_failed Fertilizer.set_is_failed negb].
  rewrite Hr. cbn [Fertilizer.failure_probability Fertilizer.set_is_failed].
  destruct (Qlt_bool r (Fertilizer.failure_probability self)); [| reflexivity].
  rewrite Hd. reflexivity.
Qed.

End DeviceFacts.

(** A configuration used to run the model: thresholds 0.55/0.3 with
    critical levels 0.2/0.15 for every species, fault probability 0.1,
    negative penalty constants, a constant temperature of 10 degrees. *)
Definition moist_plant_config : Config.plant :=
  Config.mk_plant 0.55 0.3 0.2 0.15 0.05 30 0.6 25.

Definition sample_config : Config.t :=
  Config.mk moist_plant_config moist_plant_config moist_plant_config
            moist_plant_config moist_plant_config
            0.3 0.2 0.1 0.05 1000 0.02 0.01
            10 0 0 0.8
            0.5 0.5 (-20) (-2) (-3)
            42%Z 240%Z.

(** A sequence of watering requests [(pot, duration, step)] sent to the
    device manager one after the other. *)
Definition water_requests {G : Type} `{PRNG G} (dm : DeviceManager.t)
           (requests : list (nat * Q * Z)) : Rand G DeviceManager.t :=
  for_each
    (fun dm request =>
       let* (_, dm) :=
         DeviceManager.execute_watering dm request.1.1 request.1.2 request.2 in
       ret dm)
    dm requests.

Section ManagerFacts.
Context {G : Type} `{PRNG G}.

(** C5: a call on a failed pump or dispenser before its
    [failure_end_step] returns exactly 0, draws nothing, leaves the
    device as it is and is logged with [success = false]; a call at or
    after [failure_end_step] is decided by one fresh draw: below the
    fault probability it fails again, otherwise it returns the
    configured effect. *)
Theorem failed_device_yields_nothing (dm : DeviceManager.t) (pot_id : nat)
        (q : Q) (step : Z) (g : G) :
  let pump := DeviceManager.water_pump dm in
  let fert := DeviceManager.fertilizer dm in
  let logged kind effect pump fert :=
    DeviceManager.mk pump fert (DeviceManager.sensors dm)
      (DeviceManager.operation_log dm
       ++ [Operation.mk step kind pot_id q effect (Qgt_bool effect 0)]) in
  (WaterPump.is_failed pump = true ->
   (step < WaterPump.failure_end_step pump)%Z ->
   Qgt_bool 0 0 = false
   /\ DeviceManager.execute_watering dm pot_id q step g
      = (0, logged Water 0 pump fert, g))
  /\ (Fertilizer.is_failed fert = true ->
      (step < Fertilizer.failure_end_step fert)%Z ->
      DeviceManager.execute_fertilizing dm pot_id q step g
      = (0, logged Fertilize 0 pump fert, g))
  /\ (WaterPump.is_failed pump = true ->
      (WaterPump.failure_end_step pump <= step)%Z ->
      let (r, g') := rng_random g in
      let '(effect, dm', g'') := DeviceManager.execute_watering dm pot_id q step g in
      g'' = g'
      /\ effect = (if Qlt_bool r (WaterPump.failure_probability pump)
                   then 0 else WaterPump.water_effect pump)
      /\ dm' = logged Water effect (DeviceManager.water_pump dm') fert)
  /\ (Fertilizer.is_failed fert = true ->
      (Fertilizer.failure_end_step fert <= step)%Z ->
      let (r, g') := rng_random g in
      let '(effect, dm', g'') := DeviceManager.execute_fertilizing dm pot_id q step g in
      effect = (if Qlt_bool r (Fertilizer.failure_probability fert)
                then 0 else Fertilizer.fertilizer_effect fert)
      /\ dm' = logged Fertilize effect pump (DeviceManager.fertilizer dm')).
Proof.
  intros pump fert logged. subst pump fert logged. cbv beta.
  split; [| split; [| split]].
  - intros Hf Hlt. split; [reflexivity |].
    unfold DeviceManager.execute_watering, bind, ret.
    rewrite irrigate_while_failed by assumption. reflexivity.
  - intros Hf Hlt.
    unfold DeviceManager.execute_fertilizing, bind, ret.
    rewrite apply_fertilizer_while_failed by assumption. reflexivity.
  - intros Hf Hle.
    pose proof (irrigate_fresh_draw (DeviceManager.water_pump dm) pot_id q step g
                  (or_intror Hle)) as Hcall.
    destruct (rng_random g) as [r g'].
    unfold DeviceManager.execute_watering, bind, ret. rewrite Hcall.
    destruct (Qlt_bool r _); repeat split.
  - intros Hf Hle.
    pose proof (apply_fertilizer_fresh_draw (DeviceManager.fertilizer dm) pot_id q
                  step g (or_intror Hle)) as Hcall.
    destruct (rng_random g) as [r g1].
    destruct (rng_randint 3 8 g1) as [d g2].
    unfold DeviceManager.execute_fertilizing, bind, ret. rewrite Hcall.
    destruct (Qlt_bool r _); repeat split.
Qed.

(** One watering on an operational pump whose fault probability is 0. *)
Lemma execute_watering_never_faulty dm pot_id q step (g : G) :
  WaterPump.is_failed (DeviceManager.water_pump dm) = false ->
  WaterPump.failure_probability (DeviceManager.water_pump dm) == 0 ->
  let pump := DeviceManager.water_pump dm in
  let effect := WaterPump.water_effect pump in
  DeviceManager.execute_watering dm pot_id q step g
  = (effect,
     DeviceManager.mk
       (WaterPump.add_usage effect (WaterPump.set_is_failed false pump))
       (DeviceManager.fertilizer dm) (DeviceManager.sensors dm)
       (DeviceManager.operation_log dm
        ++ [Operation.mk step Water pot_id q effect (Qgt_bool effect 0)]),
     (rng_random g).2).
Proof.
  intros Hok Hp pump effect. subst pump effect.
  pose proof (irrigate_fresh_draw (DeviceManager.water_pump dm) pot_id q step g
                (or_introl Hok)) as Hcall.
  pose proof (random_not_below_zero g _ Hp) as Hdraw.
  destruct (rng_random g) as [r g']. cbn [fst snd] in *.
  unfold DeviceManager.execute_watering, bind, ret.
  rewrite Hcall, Hdraw. reflexivity.
Qed.

Lemma water_requests_never_faulty requests : forall dm (g : G),
  WaterPump.is_failed (DeviceManager.water_pump dm) = false ->
  WaterPump.failure_probability (DeviceManager.water_pump dm) == 0 ->
  0 < WaterPump.water_effect (DeviceManager.water_pump dm) ->
  DeviceManager.operation_log (water_requests dm requests g).1
  = DeviceManager.operation_log dm
    ++ map (fun request =>
              Operation.mk request.2 Water request.1.1 request.1.2
                (WaterPump.water_effect (DeviceManager.water_pump dm)) true)
           requests.
Proof.
  induction requests as [| [[pot_id q] step] rest IH]; intros dm g Hok Hp Hpos.
  - cbn. rewrite app_nil_r. reflexivity.
  - unfold water_requests. cbn [for_each]. unfold bind at 1.
    unfold bind at 1. cbn [fst snd].
    rewrite execute_watering_never_faulty by assumption.
    unfold ret at 1.
    match goal with
    | |- context [for_each ?f ?dm' rest ?g'] =>
        change (for_each f dm' rest g') with (water_requests dm' rest g');
        rewrite (IH dm' g' eq_refl Hp Hpos)
    end.
    cbn [DeviceManager.operation_log DeviceManager.water_pump
         WaterPump.water_effect WaterPump.add_usage WaterPump.set_is_failed map
         fst snd].
    apply Qlt_bool_iff in Hpos. unfold Qgt_bool. rewrite Hpos.
    rewrite <- app_assoc. reflexivity.
Qed.

(** C7: with the pump's fault probability at 0 and a positive
    configured water effect, every watering request sent to a freshly
    built device manager is logged with [success = true] and with the
    configured effect as [actual_effect], call after call. *)
Theorem watering_always_succeeds_without_faults (config : Config.t)
        (requests : list (nat * Q * Z)) (g : G) :
  Config.failure_probability config == 0 ->
  0 < Config.water_effect config ->
  DeviceManager.operation_log
    (water_requests (DeviceManager.init config) requests g).1
  = map (fun request =>
           Operation.mk request.2 Water request.1.1 request.1.2
                        (Config.water_effect config) true)
        requests.
Proof.
  intros Hp Hpos.
  rewrite water_requests_never_faulty; [reflexivity | reflexivity | exact Hp | exact Hpos].
Qed.

End ManagerFacts.

(** A manager whose pump is failed until step 1 and whose dispenser is
    failed until step 8. *)
Definition broken_manager : DeviceManager.t :=
  DeviceManager.mk (WaterPump.mk 0.3 0 0%Z true 1%Z 0.1)
                   (Fertilizer.mk 0.2 0 0%Z true 8%Z 0.1)
                   (SensorArray.init sample_config) [].

Lemma failed_device_yields_nothing_witness :
  let tape : Tape.t := [500%N] in
  (DeviceManager.execute_watering broken_manager 2 0.5 0 tape).1.1 = 0
  /\ (DeviceManager.execute_fertilizing broken_manager 2 0.5 0 tape).1.1 = 0
  /\ (DeviceManager.execute_watering broken_manager 2 0.5 9 tape).1.1 = 0.3
  /\ (DeviceManager.execute_fertilizing broken_manager 2 0.5 9 tape).1.1 = 0.2.
Proof.
  intros tape.
  destruct (failed_device_yields_nothing broken_manager 2 0.5 0 tape)
    as (Hpump & Hfert & _ & _).
  destruct (failed_device_yields_nothing broken_manager 2 0.5 9 tape)
    as (_ & _ & Hpump' & Hfert').
  split; [| split; [| split]].
  - destruct (Hpump eq_refl ltac:(reflexivity)) as [_ ->]. reflexivity.
  - rewrite (Hfert eq_refl ltac:(reflexivity)). reflexivity.
  - specialize (Hpump' eq_refl ltac:(discriminate)).
    destruct (rng_random tape) as [r g'] eqn:Hr.
    destruct (DeviceManager.execute_watering broken_manager 2 0.5 9 tape)
      as [[effect dm'] g''].
    destruct Hpump' as (_ & -> & _). injection Hr as <- _. reflexivity.
  - specialize (Hfert' eq_refl ltac:(discriminate)).
    destruct (rng_random tape) as [r g'] eqn:Hr.
    destruct (DeviceManager.execute_fertilizing broken_manager 2 0.5 9 tape)
      as [[effect dm'] g''].
    destruct Hfert' as (-> & _). injection Hr as <- _. reflexivity.
Defined.

Lemma watering_always_succeeds_without_faults_witness :
  let config := sample_config in
  let quiet :=
    Config.mk (Config.lettuce config) (Config.spinach config)
      (Config.radish config) (Config.swiss_chard config)
      (Config.nasturtium config) 0.3 0.2 0 0.05 1000 0.02 0.01 10 0 0 0.8
      0.5 0.5 (-20) (-2) (-3) 42%Z 240%Z in
  map Operation.success
      (DeviceManager.operation_log
         (water_requests (DeviceManager.init quiet)
                         [(0%nat, 0.5, 0%Z); (3%nat, 0.5, 0%Z); (0%nat, 0.5, 1%Z)]
                         ([0; 0; 0]%N : Tape.t)).1)
  = [true; true; true].
Proof.
  intros config quiet.
  rewrite (watering_always_succeeds_without_faults quiet).
  - reflexivity.
  - reflexivity.
  - reflexivity.
Defined.

(** C6 (evaluation of the code): a pump fault drawn at step 5 sets
    [failure_end_step] to the absolute step 1, so the next request of the
    same step 5 finds the fault over and succeeds. *)
Lemma pump_fault_is_over_within_the_step :
  let dm := DeviceManager.init sample_config in
  let '(effect1, dm1, g1) :=
    DeviceManager.execute_watering dm 0 0.5 5 ([0; 500]%N : Tape.t) in
  let '(effect2, dm2, g2) := DeviceManager.execute_watering dm1 1 0.5 5 g1 in
  effect1 = 0
  /\ WaterPump.is_failed (DeviceManager.water_pump dm1) = true
  /\ WaterPump.failure_end_step (DeviceManager.water_pump dm1) = 1%Z
  /\ effect2 = 0.3
  /\ map (fun op => (Operation.step op, Operation.success op))
         (DeviceManager.operation_log dm2)
     = [(5%Z, false); (5%Z, true)].
Proof. vm_compute. repeat split. Qed.

(** ** Scoring *)

Definition fresh_lettuce : Plant.t := Plant.init Lettuce moist_plant_config 0.

(** C3 (evaluation of the code): with negative penalty constants, one
    healthy plant whose soil moisture is 1.3 gets a penalty term of +15,
    and its score is above the score of the same plant at moisture 1.0:
    the over-saturation term raises the score. *)
Lemma oversaturation_raises_score :
  let engine := EvaluationEngine.init sample_config in
  let no_decisions := Decisions.mk [] [] in
  let no_actions := DeviceActions.mk [] [] in
  let soaked := Plant.set_soil_moisture 1.3 fresh_lettuce in
  let moist := Plant.set_soil_moisture 1 fresh_lettuce in
  EvaluationEngine.p_plant_death engine < 0
  /\ EvaluationEngine.p_overwatering engine < 0
  /\ EvaluationEngine.p_overfertilizing engine < 0
  /\ EvaluationEngine._calculate_penalties_enhanced
       engine [soaked] no_decisions no_actions == 15
  /\ (EvaluationEngine.calculate_score engine 0 [moist] no_decisions no_actions).1
     < (EvaluationEngine.calculate_score engine 0 [soaked] no_decisions no_actions).1.
Proof. vm_compute. repeat split. Qed.

(** ** The step loop *)

Ltac destruct_pairs H :=
  repeat match type of H with
         | context [let (_, _) := ?c in _] =>
             first [ is_var c; destruct c as [? ?]
                   | destruct c as [? ?] eqn:? ]
         end.

Section LoopFacts.
Context {G : Type} `{PRNG G} `{Libm}.

Lemma execute_water_length step decisions : forall acc dm (g : G),
  length (for_each (GardenSimulator.execute_water step) (acc, dm) decisions g).1.1
  = (length acc + length decisions)%nat.
Proof.
  induction decisions as [| d rest IH]; intros acc dm g.
  - cbn. lia.
  - cbn [for_each]. unfold bind at 1.
    destruct (GardenSimulator.execute_water step (acc, dm) d g) as [[acc' dm'] g'] eqn:E.
    rewrite IH.
    unfold GardenSimulator.execute_water, bind, ret in E.
    destruct_pairs E. injection E as <- _ _.
    rewrite length_app. cbn. lia.
Qed.

Lemma execute_fertilize_length step decisions : forall acc dm (g : G),
  length (for_each (GardenSimulator.execute_fertilize step) (acc, dm) decisions g).1.1
  = (length acc + length decisions)%nat.
Proof.
  induction decisions as [| d rest IH]; intros acc dm g.
  - cbn. lia.
  - cbn [for_each]. unfold bind at 1.
    destruct (GardenSimulator.execute_fertilize step (acc, dm) d g) as [[acc' dm'] g'] eqn:E.
    rewrite IH.
    unfold GardenSimulator.execute_fertilize, bind, ret in E.
    destruct_pairs E. injection E as <- _ _.
    rewrite length_app. cbn. lia.
Qed.

(** Every request is executed and recorded exactly once, failed or
    not: the executed actions are as many as the requests. *)
Lemma execute_device_actions_counts dm decisions step (g : G) :
  let actions := (GardenSimulator._execute_device_actions dm decisions step g).1.1 in
  length (DeviceActions.water actions) = length (Decisions.water decisions)
  /\ length (DeviceActions.fertilize actions) = length (Decisions.fertilize decisions).
Proof.
  unfold GardenSimulator._execute_device_actions, bind, ret.
  pose proof (execute_water_length step (Decisions.water decisions) [] dm g) as Hw.
  destruct (for_each (GardenSimulator.execute_water step) ([], dm)
                     (Decisions.water decisions) g) as [[water dm1] g1].
  pose proof (execute_fertilize_length step (Decisions.fertilize decisions) [] dm1 g1) as Hf.
  destruct (for_each (GardenSimulator.execute_fertilize step) ([], dm1)
                     (Decisions.fertilize decisions) g1) as [[fertilize dm2] g2].
  cbn in *. split; assumption.
Qed.

End LoopFacts.

(** The request and action counts agree in a step result. *)
Definition counts_agree (s : StepResult.t) : Prop :=
  length (DeviceActions.water (StepResult.device_actions s))
  = length (Decisions.water (StepResult.student_decisions s))
  /\ length (DeviceActions.fertilize (StepResult.device_actions s))
     = length (Decisions.fertilize (StepResult.student_decisions s)).

Section RunFacts.
Context {G : Type} `{PRNG G} `{Libm}.

(** What one step leaves untouched and what its result records. *)
Lemma step_simulation_frame self step (g : G) :
  let '(result, self', _) := GardenSimulator.step_simulation self step g in
  GardenSimulator.step_results self' = GardenSimulator.step_results self
  /\ GardenSimulator.config self' = GardenSimulator.config self
  /\ GardenSimulator.should_water self' = GardenSimulator.should_water self
  /\ GardenSimulator.should_fertilize self' = GardenSimulator.should_fertilize self
  /\ GardenSimulator.is_running self' = GardenSimulator.is_running self
  /\ GardenSimulator.current_step self' = step
  /\ StepResult.step result = step
  /\ counts_agree result.
Proof.
  destruct (GardenSimulator.step_simulation self step g) as [[result self'] g'] eqn:E.
  unfold GardenSimulator.step_simulation, bind, ret in E.
  destruct_pairs E.
  match goal with
  | Hx : GardenSimulator._execute_device_actions ?dm ?ds ?st ?g0 = _ |- _ =>
      pose proof (execute_device_actions_counts dm ds st g0) as Hc;
      rewrite Hx in Hc
  end.
  injection E as <- <- _. cbn. repeat split; apply Hc.
Qed.

End RunFacts.

Section RunTotals.
Context {G : Type} `{PRNG G} `{Libm}.

Lemma run_step_frame self step (g : G) :
  let (self', _) := GardenSimulator.run_step self step g in
  exists result,
    GardenSimulator.step_results self'
    = GardenSimulator.step_results self ++ [result]
    /\ StepResult.step result = Z.of_nat step
    /\ counts_agree result
    /\ GardenSimulator.config self' = GardenSimulator.config self
    /\ GardenSimulator.should_water self' = GardenSimulator.should_water self
    /\ GardenSimulator.should_fertilize self' = GardenSimulator.should_fertilize self.
Proof.
  unfold GardenSimulator.run_step, bind, ret.
  pose proof (step_simulation_frame self (Z.of_nat step) g) as Hstep.
  destruct (GardenSimulator.step_simulation self (Z.of_nat step) g)
    as [[result self1] g1].
  destruct Hstep as (Hres & Hcfg & Hsw & Hsf & _ & _ & Hst & Hc).
  exists result. cbn. rewrite Hres. repeat split; try assumption; apply Hc.
Qed.

(** The loop of [run_simulation] appends one result per step, in
    order, each with agreeing counts. *)
Lemma run_loop_results steps : forall self (g : G),
  let (self', _) := for_each GardenSimulator.run_step self steps g in
  exists results,
    GardenSimulator.step_results self'
    = GardenSimulator.step_results self ++ results
    /\ map StepResult.step results = map Z.of_nat steps
    /\ Forall counts_agree results.
Proof.
  induction steps as [| step rest IH]; intros self g.
  - cbn. exists []. rewrite app_nil_r. repeat split. constructor.
  - cbn [for_each]. unfold bind at 1.
    pose proof (run_step_frame self step g) as Hstep.
    destruct (GardenSimulator.run_step self step g) as [self1 g1].
    destruct Hstep as (result & Hres & Hst & Hc & _).
    specialize (IH self1 g1).
    destruct (for_each GardenSimulator.run_step self1 rest g1) as [self2 g2].
    destruct IH as (results & Hres' & Hsts & Hcs).
    exists (result :: results). rewrite Hres', Hres, <- app_assoc.
    repeat split.
    + cbn. rewrite Hst, Hsts. reflexivity.
    + constructor; assumption.
Qed.

Lemma sum_counts_agree results :
  Forall counts_agree results ->
  sum_list (map (fun s => length (Decisions.water (StepResult.student_decisions s)))
                results)
  = sum_list (map (fun s => length (DeviceActions.water (StepResult.device_actions s)))
                  results)
  /\ sum_list (map (fun s => length (Decisions.fertilize (StepResult.student_decisions s)))
                   results)
     = sum_list (map (fun s => length (DeviceActions.fertilize (StepResult.device_actions s)))
                     results).
Proof.
  induction 1 as [| s rest [Hw Hf] _ [IHw IHf]]; [split; reflexivity |].
  cbn. rewrite Hw, Hf, IHw, IHf. split; reflexivity.
Qed.

(** The results of a whole run, from the simulator as handed to
    [run_simulation]. *)
Lemma run_simulation_results self total_steps (g : G) :
  let n :=
    Z.to_nat (match total_steps with
              | None => Config.total_steps (GardenSimulator.config self)
              | Some n => n
              end) in
  let '(report, self', _) := GardenSimulator.run_simulation self total_steps g in
  report = GardenSimulator._generate_final_report self'
  /\ map StepResult.step (GardenSimulator.step_results self')
     = map Z.of_nat (seq 0 n)
  /\ Forall counts_agree (GardenSimulator.step_results self').
Proof.
  intros n. unfold GardenSimulator.run_simulation, bind, ret.
  match goal with
  | |- context [for_each GardenSimulator.run_step ?s ?l g] =>
      pose proof (run_loop_results l s g) as Hloop;
      destruct (for_each GardenSimulator.run_step s l g) as [self1 g1]
  end.
  destruct Hloop as (results & Hres & Hsteps & Hcounts).
  cbn [GardenSimulator.step_results app] in Hres.
  split; [reflexivity |]. cbn [GardenSimulator.step_results].
  rewrite Hres. split; assumption.
Qed.

(** C9: in the report of a run, [total_water_actions] and
    [total_fertilize_actions] are the sums, over the recorded steps,
    of the number of entries logged under [water] and [fertilize] in
    the step's [device_actions]; a run of no step has no report. *)
Theorem report_totals_match_logged_actions self total_steps (g : G) :
  let '(report, self', _) := GardenSimulator.run_simulation self total_steps g in
  let results := GardenSimulator.step_results self' in
  match report with
  | Some r =>
      Report.total_water_actions r
      = sum_list (map (fun s => length (DeviceActions.water (StepResult.device_actions s)))
                      results)
      /\ Report.total_fertilize_actions r
         = sum_list (map (fun s => length (DeviceActions.fertilize (StepResult.device_actions s)))
                         results)
  | None => results = []
  end.
Proof.
  pose proof (run_simulation_results self total_steps g) as Hrun.
  destruct (GardenSimulator.run_simulation self total_steps g) as [[report self'] g'].
  destruct Hrun as (-> & _ & Hcounts).
  unfold GardenSimulator._generate_final_report.
  destruct (last (GardenSimulator.step_results self')) as [final |] eqn:Hlast.
  - cbn [Report.total_water_actions Report.total_fertilize_actions].
    apply sum_counts_agree. exact Hcounts.
  - apply last_None in Hlast. exact Hlast.
Qed.

End RunTotals.

(** ** Sensors *)

Lemma lookup_fold_delete (l : list nat) : forall (m : gmap nat Z) (k : nat) (e : Z),
  fold_left (fun m pot_id => delete pot_id m) l m !! k = Some e
  <-> (k ∉ l) /\ m !! k = Some e.
Proof.
  induction l as [| a l IH]; intros m k e; cbn [fold_left].
  - split; [intros Hm; split; [apply not_elem_of_nil | exact Hm] | intros [_ Hm]; exact Hm].
  - rewrite IH, not_elem_of_cons, lookup_delete_Some. split.
    + intros (Hl & Hne & Hm). repeat split; [congruence | exact Hl | exact Hm].
    + intros ((Hne & Hl) & Hm). repeat split; [exact Hl | congruence | exact Hm].
Qed.

Lemma elem_of_recovered_sensors (failures : gmap nat Z) (step : Z) (k : nat) :
  k ∈ SensorArray.recovered_sensors failures step
  <-> exists e, failures !! k = Some e /\ (e <= step)%Z.
Proof.
  unfold SensorArray.recovered_sensors. rewrite list_elem_of_fmap. split.
  - intros ([k' e] & -> & Hin). apply list_elem_of_filter in Hin as [Hle Hin].
    apply elem_of_map_to_list in Hin. cbn in *. exists e. split; [exact Hin |].
    apply Z.leb_le. exact Hle.
  - intros (e & Hk & Hle). exists (k, e). split; [reflexivity |].
    apply list_elem_of_filter. split.
    + cbn. apply Z.leb_le. exact Hle.
    + apply elem_of_map_to_list. exact Hk.
Qed.

(** The recovery loop keeps exactly the faults that end after the
    current step. *)
Lemma recover_lookup (failures : gmap nat Z) (step : Z) (k : nat) (e : Z) :
  SensorArray.recover failures step !! k = Some e
  <-> failures !! k = Some e /\ (step < e)%Z.
Proof.
  unfold SensorArray.recover. rewrite lookup_fold_delete, elem_of_recovered_sensors.
  split.
  - intros [Hnot Hk]. split; [exact Hk |].
    destruct (Z.lt_ge_cases step e) as [Hlt | Hge]; [exact Hlt |].
    exfalso. apply Hnot. exists e. split; [exact Hk | lia].
  - intros [Hk Hlt]. split; [| exact Hk].
    intros (e' & Hk' & Hle). rewrite Hk in Hk'. injection Hk' as <-. lia.
Qed.

Lemma recover_lookup_None (failures : gmap nat Z) (step : Z) (k : nat) :
  SensorArray.recover failures step !! k = None
  <-> forall e, failures !! k = Some e -> (e <= step)%Z.
Proof.
  split.
  - intros Hnone e Hk.
    destruct (Z.lt_ge_cases step e) as [Hlt | Hge]; [| lia].
    assert (Hsome : SensorArray.recover failures step !! k = Some e)
      by (apply recover_lookup; split; assumption).
    congruence.
  - intros Hall.
    destruct (SensorArray.recover failures step !! k) as [e |] eqn:Hk; [| reflexivity].
    apply recover_lookup in Hk as [Hk Hlt]. specialize (Hall e Hk). lia.
Qed.

Section SensorFacts.
Context {G : Type} `{PRNG G}.

(** One fault draw keeps the pending faults and may add one, ending
    one step after the current one. *)
Lemma trigger_one_entries self step failures pot_id (g : G) k e :
  (SensorArray.trigger_one self step failures pot_id g).1 !! k = Some e ->
  failures !! k = Some e \/ e = (step + 1)%Z.
Proof.
  unfold SensorArray.trigger_one.
  destruct (failures !! pot_id) as [e0 |] eqn:Hpot.
  - cbn. auto.
  - unfold bind, ret. destruct (rng_random g) as [r g'].
    destruct (Qlt_bool r (SensorArray.failure_probability self)); cbn; [| auto].
    destruct (decide (k = pot_id)) as [-> | Hne].
    + rewrite lookup_insert_eq. intros [= <-]. right. reflexivity.
    + rewrite lookup_insert_ne by congruence. auto.
Qed.

Lemma trigger_entries self step pots : forall failures (g : G) k e,
  (for_each (SensorArray.trigger_one self step) failures pots g).1 !! k = Some e ->
  failures !! k = Some e \/ e = (step + 1)%Z.
Proof.
  induction pots as [| pot rest IH]; intros failures g k e; cbn [for_each].
  - cbn. auto.
  - unfold bind at 1.
    pose proof (trigger_one_entries self step failures pot g k e) as Hone.
    destruct (SensorArray.trigger_one self step failures pot g) as [failures1 g1].
    cbn [fst] in Hone. intros Hk. apply IH in Hk as [Hk | ->]; auto.
Qed.

(** Each pass of the reading loop appends one reading. *)
Lemma read_one_length self failures w step readings ip (g : G) :
  length (SensorArray.read_one self failures w step readings ip g).1
  = S (length readings).
Proof.
  unfold SensorArray.read_one. destruct ip as [i plant].
  destruct (failures !! i).
  - unfold bind, ret.
    destruct (SensorArray._generate_faulty_reading plant w step g) as [r g'].
    cbn [fst]. rewrite length_app. cbn. lia.
  - unfold bind at 1. destruct (rng_random g) as [e g1].
    destruct (Qlt_bool e (SensorArray.sensor_error_probability self)).
    + unfold bind, ret.
      destruct (SensorArray._generate_error_reading plant w step g1) as [r g'].
      cbn [fst]. rewrite length_app. cbn. lia.
    + unfold ret. cbn [fst]. rewrite length_app. cbn. lia.
Qed.

Lemma read_all_length self failures w step ips : forall readings (g : G),
  length (for_each (SensorArray.read_one self failures w step) readings ips g).1
  = (length readings + length ips)%nat.
Proof.
  induction ips as [| ip rest IH]; intros readings g; cbn [for_each].
  - cbn. lia.
  - unfold bind at 1.
    pose proof (read_one_length self failures w step readings ip g) as Hone.
    destruct (SensorArray.read_one self failures w step readings ip g)
      as [readings1 g1].
    cbn [fst] in Hone. rewrite IH, Hone. cbn. lia.
Qed.

(** What [get_readings] returns, phase by phase. *)
Lemma get_readings_phases self plants w step (g : G) :
  let recovered := SensorArray.recover (SensorArray.sensor_failures self) step in
  let '(failures, g1) :=
    SensorArray.trigger self (length plants) step recovered g in
  let '(readings, self', _) := SensorArray.get_readings self plants w step g in
  SensorArray.sensor_failures self' = failures
  /\ SensorArray.reading_count self' = (SensorArray.reading_count self + 1)%Z
  /\ length (Readings.pots readings) = length plants
  /\ Readings.environment readings
     = SensorReading.mk None None (Some (WeatherState.temperature w)) step.
Proof.
  intros recovered. subst recovered.
  unfold SensorArray.get_readings, bind, ret.
  destruct (SensorArray.trigger self (length plants) step
              (SensorArray.recover (SensorArray.sensor_failures self) step) g)
    as [failures g1].
  match goal with
  | |- context [for_each ?f ?acc ?l g1] =>
      pose proof (read_all_length self failures w step l acc g1) as Hlen;
      destruct (for_each f acc l g1) as [pots g2]
  end.
  cbn [fst] in Hlen. cbn. repeat split.
  rewrite Hlen, length_zip, length_seq. cbn. lia.
Qed.

(** C10: a pot that is not in a fault when the fault draws of step [s]
    are made and that is in a fault when [get_readings] returns has
    its [failure_end_step] at [s + 1]; the recovery loop of any call
    at a step from [s + 1] on removes it before readings are
    generated; and the call itself emits one reading per pot. *)
Theorem sensor_fault_lasts_one_step self plants w (s : Z) (g : G)
        (pot_id : nat) (e : Z) :
  let '(readings, self', _) := SensorArray.get_readings self plants w s g in
  SensorArray.recover (SensorArray.sensor_failures self) s !! pot_id = None ->
  SensorArray.sensor_failures self' !! pot_id = Some e ->
  e = (s + 1)%Z
  /\ (forall s', (s + 1 <= s')%Z ->
        SensorArray.recover (SensorArray.sensor_failures self') s' !! pot_id = None)
  /\ length (Readings.pots readings) = length plants.
Proof.
  pose proof (get_readings_phases self plants w s g) as Hphases.
  cbv zeta in Hphases. unfold SensorArray.trigger in Hphases.
  pose proof (trigger_entries self s (seq 0 (length plants))
                (SensorArray.recover (SensorArray.sensor_failures self) s)
                g pot_id e) as Hentries.
  destruct (for_each (SensorArray.trigger_one self s)
              (SensorArray.recover (SensorArray.sensor_failures self) s)
              (seq 0 (length plants)) g) as [failures g1].
  destruct (SensorArray.get_readings self plants w s g) as [[readings self'] g'].
  destruct Hphases as (Hf & _ & Hlen & _). cbn [fst] in Hentries.
  intros Hclear Hfault. rewrite Hf in *.
  assert (He : e = (s + 1)%Z).
  { destruct (Hentries Hfault) as [Hold | ->]; [congruence | reflexivity]. }
  subst e. repeat split; [| exact Hlen].
  intros s' Hs'. apply recover_lookup_None. intros e' He'.
  rewrite Hfault in He'. injection He' as <-. exact Hs'.
Qed.

End SensorFacts.

Lemma sensor_fault_lasts_one_step_witness :
  let tape : Tape.t := [0%N] in
  let out :=
    SensorArray.get_readings (SensorArray.init sample_config) [fresh_lettuce]
                             mild_weather 4 tape in
  SensorArray.sensor_failures out.1.2 !! 0%nat = Some 5%Z
  /\ SensorArray.recover (SensorArray.sensor_failures out.1.2) 5 !! 0%nat = None.
Proof.
  intros tape out. subst out.
  pose proof (sensor_fault_lasts_one_step (SensorArray.init sample_config)
                [fresh_lettuce] mild_weather 4 tape 0 5) as Hfault.
  destruct (SensorArray.get_readings (SensorArray.init sample_config)
              [fresh_lettuce] mild_weather 4 tape) as [[readings self'] g'] eqn:Hcall.
  assert (Hin : SensorArray.sensor_failures self' !! 0%nat = Some 5%Z).
  { replace self' with
      (SensorArray.get_readings (SensorArray.init sample_config) [fresh_lettuce]
                                mild_weather 4 tape).1.2
      by (rewrite Hcall; reflexivity).
    vm_compute. reflexivity. }
  cbn [fst snd]. split; [exact Hin |].
  destruct (Hfault ltac:(vm_compute; reflexivity) Hin) as (_ & Hgone & _).
  apply Hgone. lia.
Defined.

(** ** Reproducibility *)

(** The scores of a run, step by step, for a simulator built from the
    two configuration documents and given the two policy functions. *)
Definition score_trajectory {G : Type} `{PRNG G} `{Libm}
           (config default_config : Config.t)
           (should_water should_fertilize : PolicyFn)
           (total_steps : option Z) (g : G) : list Q :=
  let sim :=
    GardenSimulator.register_student_functions
      (GardenSimulator.init config default_config)
      should_water should_fertilize in
  map StepResult.score
      (GardenSimulator.step_results
         (GardenSimulator.run_simulation sim total_steps g).1.2).

(** The policy that never asks for anything. *)
Definition never_act : PolicyFn := fun _ => Some false.

(** Two states of the generator: on the first the rain draw of step 0 is
    [0], on the second it is [0.999]; no sensor fault or error on either. *)
Definition rainy_tape : Tape.t :=
  [0; 0; 999; 999; 999; 999; 999; 999; 999; 999; 999; 999]%N.
Definition dry_tape : Tape.t :=
  [0; 999; 999; 999; 999; 999; 999; 999; 999; 999; 999; 999]%N.

(** C8 (counterexample): the same configuration, seed included, and the
    same policy give different scores at step 0 from two states of the
    generator; nothing in the run ties that state to the seed. *)
Lemma same_seed_different_scores :
  ~ Forall2 Qeq
      (score_trajectory (H0 := flat_libm) sample_config sample_config
                        never_act never_act (Some 1%Z) rainy_tape)
      (score_trajectory (H0 := flat_libm) sample_config sample_config
                        never_act never_act (Some 1%Z) dry_tape).
Proof.
  vm_compute. intros Hall. inversion Hall as [| ? ? ? ? Hhead _]; subst.
  vm_compute in Hhead. discriminate Hhead.
Qed.

Module SeedFacts.

Import GardenSimulator.

(** The assignment [self.config = c]. *)
Definition set_config (c : Config.t) (self : t) : t :=
  mk c (weather_sim self) (device_manager self) (soil_manager self)
     (state_manager self) (evaluator self) (plants self)
     (should_water self) (should_fertilize self)
     (current_step self) (is_running self) (step_results self).

Lemma init_with_seed config default_config seed seed' :
  init (Config.with_random_seed seed config)
       (Config.with_random_seed seed' default_config)
  = set_config (Config.with_random_seed seed config)
               (init config default_config).
Proof. destruct config, default_config. reflexivity. Qed.

Section Draws.
Context {G : Type} `{PRNG G} `{Libm}.

Lemma decide_pot_config c c0 ws dm sm stm ev pl sw sf cs run res :
  decide_pot (mk c ws dm sm stm ev pl sw sf cs run res)
  = decide_pot (mk c0 ws dm sm stm ev pl sw sf cs run res).
Proof. reflexivity. Qed.

Lemma make_decisions_config c c0 ws dm sm stm ev pl sw sf cs run res readings w :
  _make_student_decisions_with_history
    (mk c ws dm sm stm ev pl sw sf cs run res) readings w
  = _make_student_decisions_with_history
      (mk c0 ws dm sm stm ev pl sw sf cs run res) readings w.
Proof.
  unfold _make_student_decisions_with_history.
  rewrite (decide_pot_config c c0). reflexivity.
Qed.

(** A step never reads [self.config]. *)
Lemma step_simulation_config c self step (g : G) :
  step_simulation (set_config c self) step g
  = let '(result, self', g') := step_simulation self step g in
    (result, set_config c self', g').
Proof.
  destruct self as [c0 ws dm sm stm ev pl sw sf cs run res].
  unfold step_simulation, set_config, bind, ret.
  cbn [config weather_sim device_manager soil_manager state_manager
       evaluator plants should_water should_fertilize current_step
       is_running step_results].
  destruct (WeatherSimulator.step_weather ws step g) as [[w ws'] g1].
  destruct (DeviceManager.get_sensor_readings dm pl w step g1)
    as [[readings dm1] g2].
  rewrite (make_decisions_config c c0).
  destruct (_execute_device_actions dm1 _ step g2) as [[actions dm2] g3].
  destruct (EvaluationEngine.calculate_score ev step _ _ actions)
    as [score ev'].
  reflexivity.
Qed.

Lemma run_step_config c self step (g : G) :
  run_step (set_config c self) step g
  = let (self', g') := run_step self step g in (set_config c self', g').
Proof.
  unfold run_step, bind, ret. rewrite step_simulation_config.
  destruct (step_simulation self (Z.of_nat step) g) as [[result self1] g1].
  reflexivity.
Qed.

Lemma run_loop_config c steps : forall self (g : G),
  for_each run_step (set_config c self) steps g
  = let (self', g') := for_each run_step self steps g in
    (set_config c self', g').
Proof.
  induction steps as [| step rest IH]; intros self g; cbn [for_each].
  - reflexivity.
  - unfold bind. rewrite run_step_config.
    destruct (run_step self step g) as [self1 g1]. apply IH.
Qed.

(** A run reads [self.config] for the default step count only. *)
Lemma run_simulation_config c self total_steps (g : G) :
  Config.total_steps c = Config.total_steps (config self) ->
  step_results (run_simulation (set_config c self) total_steps g).1.2
  = step_results (run_simulation self total_steps g).1.2.
Proof.
  intros Htotal. unfold run_simulation, bind, ret.
  cbn [config set_config weather_sim device_manager soil_manager
       state_manager evaluator plants should_water should_fertilize
       current_step is_running step_results].
  rewrite Htotal.
  match goal with
  | |- context [for_each run_step (mk c ?a ?b ?d ?e ?f ?p ?q ?r ?s ?t ?u) ?l g] =>
      change (mk c a b d e f p q r s t u)
        with (set_config c (mk (config self) a b d e f p q r s t u));
      rewrite (run_loop_config c l)
  end.
  match goal with
  | |- context [for_each run_step ?s ?l g] =>
      destruct (for_each run_step s l g) as [self1 g1]
  end.
  reflexivity.
Qed.

End Draws.

End SeedFacts.

(** C8 (as amended): from one and the same state of the generator, two
    runs with the same policy whose configuration documents differ in
    nothing but [simulation.random_seed] produce the same scores, step by
    step: the seed is never applied to the generator and has no effect
    on the run. *)
Theorem seed_has_no_effect {G : Type} `{PRNG G} `{Libm}
        (config default_config : Config.t) (seed seed' : Z)
        (should_water should_fertilize : PolicyFn)
        (total_steps : option Z) (g : G) :
  score_trajectory (Config.with_random_seed seed config)
                   (Config.with_random_seed seed' default_config)
                   should_water should_fertilize total_steps g
  = score_trajectory config default_config
                     should_water should_fertilize total_steps g.
Proof.
  unfold score_trajectory. rewrite SeedFacts.init_with_seed.
  change (GardenSimulator.register_student_functions
            (SeedFacts.set_config ?c ?s) should_water should_fertilize)
    with (SeedFacts.set_config c
            (GardenSimulator.register_student_functions s should_water should_fertilize)).
  rewrite SeedFacts.run_simulation_config; [reflexivity |].
  destruct config. reflexivity.
Qed.

(** * Further properties of the engine *)

(** ** Plants: what an update keeps and bounds *)

Section PlantUpdateFacts.

Import Plant.

Ltac health_cases :=
  unfold _update_health_simple, _update_health_with; lazy zeta;
  match goal with
  | |- context [species ?p] => destruct (species p)
  end;
  match goal with
  | |- context [set_health (health ?p + ?hc) ?p] => generalize hc; intros ?
  end;
  match goal with
  | |- context [Qle_bool ?a ?b] => destruct (Qle_bool a b)
  end; reflexivity.

Lemma health_update_keeps_biomass p : biomass (_update_health_simple p) = biomass p.
Proof. health_cases. Qed.

Lemma health_update_keeps_rate p :
  growth_rate_max (_update_health_simple p) = growth_rate_max p.
Proof. health_cases. Qed.


Lemma health_update_keeps_soil p :
  soil_moisture (_update_health_simple p) = soil_moisture p
  /\ nutrient_level (_update_health_simple p) = nutrient_level p
  /\ days_alive (_update_health_simple p) = days_alive p.
Proof. repeat split; health_cases. Qed.

Ltac phenology_cases :=
  unfold _update_phenology, _update_phenology_base,
    _update_phenology_swiss_chard, _update_phenology_nasturtium;
  match goal with
  | |- context [species ?p] => destruct (species p)
  end;
  repeat match goal with
         | |- context [if ?b then _ else _] => destruct b
         end;
  try reflexivity.

Lemma phenology_update_keeps_biomass p : biomass (_update_phenology p) = biomass p.
Proof. phenology_cases. Qed.

Lemma phenology_update_keeps_rate p :
  growth_rate_max (_update_phenology p) = growth_rate_max p.
Proof. phenology_cases. Qed.

Lemma phenology_update_keeps_soil p :
  soil_moisture (_update_phenology p) = soil_moisture p
  /\ nutrient_level (_update_phenology p) = nutrient_level p
  /\ days_alive (_update_phenology p) = days_alive p.
Proof. repeat split; phenology_cases. Qed.

Lemma stress_keeps_biomass p : biomass (_update_stress_simple p) = biomass p.
Proof. reflexivity. Qed.

Lemma stress_keeps_soil p :
  soil_moisture (_update_stress_simple p) = soil_moisture p
  /\ nutrient_level (_update_stress_simple p) = nutrient_level p
  /\ days_alive (_update_stress_simple p) = days_alive p.
Proof. repeat split. Qed.


Lemma absorbed_species self soil step :
  species (absorbed self soil step) = species self.
Proof. reflexivity. Qed.

Lemma growth_keeps_soil p :
  soil_moisture (_update_growth_simple p) = soil_moisture p
  /\ nutrient_level (_update_growth_simple p) = nutrient_level p
  /\ days_alive (_update_growth_simple p) = days_alive p
  /\ soil_threshold (_update_growth_simple p) = soil_threshold p.
Proof.
  unfold _update_growth_simple. destruct (Qle_bool (health p) 20); repeat split.
Qed.

(** The growth step adds a non-negative amount when the growth rate is
    not negative and the health is within its range. *)
Lemma growth_never_shrinks p :
  0 <= growth_rate_max p -> 0 <= health p ->
  biomass p <= biomass (_update_growth_simple p).
Proof.
  intros Hrate Hhealth. unfold _update_growth_simple.
  destruct (Qle_bool (health p) 20); [apply Qle_refl |].
  lazy zeta. cbn [biomass set_biomass].
  match goal with
  | |- _ <= _ + ?r * ?s * ?c * ?h =>
      assert (Hs : 0 <= s) by (destruct (phenology p); vm_compute; discriminate);
      assert (Hc : 0 <= c)
        by (repeat match goal with
                   | |- context [if ?b then _ else _] => destruct b
                   end; vm_compute; discriminate);
      assert (Hh : 0 <= h)
        by (apply Qle_shift_div_l; [reflexivity | lra]);
      generalize dependent s; generalize dependent c; generalize dependent h
  end.
  intros h Hh c Hc s Hs.
  assert (H1 : 0 <= growth_rate_max p * s) by (apply Qmult_le_0_compat; assumption).
  assert (H2 : 0 <= growth_rate_max p * s * c) by (apply Qmult_le_0_compat; assumption).
  assert (H3 : 0 <= growth_rate_max p * s * c * h) by (apply Qmult_le_0_compat; assumption).
  lra.
Qed.

End PlantUpdateFacts.

(** The biomass never decreases in an update, for a plant whose growth
    rate is not negative. *)
Theorem plant_update_biomass_monotone self w soil step :
  0 <= Plant.growth_rate_max self ->
  Plant.biomass self <= Plant.biomass (Plant.update self w soil step).2.
Proof.
  intros Hrate. rewrite update_unfold. cbn [snd].
  rewrite stress_keeps_biomass.
  match goal with
  | |- _ <= Plant.biomass (Plant._update_growth_simple ?q) =>
      assert (Hb : Plant.biomass q = Plant.biomass self)
        by (rewrite health_update_keeps_biomass, phenology_update_keeps_biomass;
            reflexivity);
      assert (Hr : Plant.growth_rate_max q = Plant.growth_rate_max self)
        by (rewrite health_update_keeps_rate, phenology_update_keeps_rate;
            reflexivity);
      assert (Hh : 0 <= Plant.health q);
      [| rewrite <- Hb; apply growth_never_shrinks; [rewrite Hr; exact Hrate | exact Hh]]
  end.
  match goal with
  | |- 0 <= Plant.health (Plant._update_health_simple ?q) =>
      destruct (update_health_simple_shape q) as (h & -> & _)
  end.
  apply Q.le_max_l.
Qed.

Lemma plant_update_biomass_monotone_witness :
  Plant.biomass fresh_lettuce
  <= Plant.biomass (Plant.update fresh_lettuce mild_weather good_soil 3).2.
Proof.
  apply (plant_update_biomass_monotone fresh_lettuce mild_weather good_soil 3).
  vm_compute. discriminate.
Defined.

(** The stress level reported by an update lies between 0 and 0.9. *)
Theorem plant_update_stress_range self w soil step :
  0 <= PlantStatus.stress_level (Plant.update self w soil step).1 <= 0.9.
Proof.
  rewrite update_unfold. cbn [fst].
  unfold Plant.get_status. cbn [PlantStatus.stress_level].
  match goal with
  | |- context [Plant._update_stress_simple ?q] => generalize q
  end.
  intros q. unfold Plant._update_stress_simple. lazy zeta.
  cbn [Plant.stress_level Plant.set_stress_level app].
  destruct (Qlt_bool (Plant.soil_moisture q) (Plant.critical_soil q));
    destruct (Qlt_bool (Plant.soil_moisture q) (Plant.soil_threshold q));
    destruct (Qlt_bool (Plant.nutrient_level q) (Plant.critical_nutrient q));
    destruct (Qlt_bool (Plant.nutrient_level q) (Plant.nutrient_threshold q));
    split; vm_compute; discriminate.
Qed.

(** The harvest yield is 0 outside the harvestable stage; within it, for
    a health in [0, 100] and a non-negative biomass, it lies between 0
    and the biomass. *)
Theorem harvest_yield_bounds self :
  0 <= Plant.health self -> Plant.health self <= 100 ->
  0 <= Plant.biomass self ->
  0 <= Plant.get_harvest_yield self
  /\ Plant.get_harvest_yield self <= Plant.biomass self
  /\ (Plant.phenology self <> HARVESTABLE -> Plant.get_harvest_yield self = 0).
Proof.
  intros Hh0 Hh100 Hb. unfold Plant.get_harvest_yield.
  destruct (decide (Plant.phenology self = HARVESTABLE)) as [Hp | Hp].
  - lazy zeta.
    set (b := Plant.biomass self) in *. set (h := Plant.health self) in *.
    assert (Hf0 : 0 <= h / 100) by (apply Qle_shift_div_l; [reflexivity | lra]).
    assert (Hf1 : h / 100 <= 1) by (apply Qle_shift_div_r; [reflexivity | lra]).
    assert (Hm0 : 0 <= Qmin 1 (b / 5)).
    { apply Q.min_glb; [lra |]. apply Qle_shift_div_l; [reflexivity | lra]. }
    assert (Hm1 : Qmin 1 (b / 5) <= 1) by apply Q.le_min_l.
    generalize dependent (Qmin 1 (b / 5)). generalize dependent (h / 100).
    intros f Hf0 Hf1 m Hm0 Hm1.
    assert (Hfm0 : 0 <= f * m) by (apply Qmult_le_0_compat; assumption).
    assert (Hfm1 : f * m <= 1).
    { assert (Hstep : f * m <= 1 * m) by (apply Qmult_le_compat_r; assumption).
      lra. }
    repeat split.
    + apply Qmult_le_0_compat; assumption.
    + assert (Hstep : (f * m) * b <= 1 * b) by (apply Qmult_le_compat_r; assumption).
      lra.
    + intros Hne. contradiction.
  - repeat split; try lra. 
Qed.

Lemma harvest_yield_bounds_witness :
  let ripe := Plant.set_phenology HARVESTABLE (Plant.set_biomass 4 fresh_lettuce) in
  0 <= Plant.get_harvest_yield ripe /\ Plant.get_harvest_yield ripe <= 4.
Proof.
  intros ripe.
  destruct (harvest_yield_bounds ripe) as (Hlo & Hhi & _);
    try (vm_compute; discriminate).
  split; [exact Hlo | exact Hhi].
Defined.

Lemma update_status_soil self w soil step :
  let status := (Plant.update self w soil step).1 in
  PlantStatus.soil_moisture status
  = default (Plant.soil_moisture self) (SoilDict.moisture soil)
  /\ PlantStatus.nutrient_level status
     = default (Plant.nutrient_level self) (SoilDict.nutrients soil)
  /\ PlantStatus.days_alive status = (step / 8)%Z.
Proof.
  intros status. subst status. rewrite update_unfold. cbn [fst].
  unfold Plant.get_status.
  cbn [PlantStatus.soil_moisture PlantStatus.nutrient_level PlantStatus.days_alive].
  match goal with
  | |- context [Plant._update_stress_simple ?q] =>
      destruct (stress_keeps_soil q) as (-> & -> & ->)
  end.
  match goal with
  | |- context [Plant._update_growth_simple ?q] =>
      destruct (growth_keeps_soil q) as (-> & -> & -> & _)
  end.
  match goal with
  | |- context [Plant._update_health_simple ?q] =>
      destruct (health_update_keeps_soil q) as (-> & -> & ->)
  end.
  match goal with
  | |- context [Plant._update_phenology ?q] =>
      destruct (phenology_update_keeps_soil q) as (-> & -> & ->)
  end.
  repeat split.
Qed.

(** The snapshot carries the soil values handed to [update], or the
    plant's previous ones for a key that is missing, and counts the days
    as [step // 8]. *)
Theorem plant_update_mirrors_soil self w soil step :
  let status := (Plant.update self w soil step).1 in
  PlantStatus.soil_moisture status
  = default (Plant.soil_moisture self) (SoilDict.moisture soil)
  /\ PlantStatus.nutrient_level status
     = default (Plant.nutrient_level self) (SoilDict.nutrients soil)
  /\ PlantStatus.days_alive status = (step / 8)%Z.
Proof. exact (update_status_soil self w soil step). Qed.


(** A swiss chard is never reported flowering or dormant. *)
Theorem swiss_chard_stages self w soil step :
  Plant.species self = SwissChard ->
  let stage := PlantStatus.phenology (Plant.update self w soil step).1 in
  stage <> FLOWERING /\ stage <> DORMANT.
Proof.
  intros Hsp stage. subst stage.
  destruct (update_snapshot self w soil step) as (_ & -> & _).
  match goal with
  | |- context [Plant._update_health_simple ?q] =>
      destruct (update_health_simple_shape q) as (h & _ & ->)
  end.
  destruct (Qle_bool _ 0); [split; discriminate |].
  unfold Plant._update_phenology.
  rewrite absorbed_species.
  rewrite Hsp. unfold Plant._update_phenology_swiss_chard.
  repeat match goal with
         | |- context [if ?b then _ else _] => destruct b
         end; split; discriminate.
Qed.

Lemma swiss_chard_stages_witness :
  let chard := Plant.init SwissChard moist_plant_config 3 in
  PlantStatus.phenology (Plant.update chard mild_weather good_soil 200).1 <> FLOWERING.
Proof.
  intros chard.
  apply (swiss_chard_stages chard mild_weather good_soil 200). reflexivity.
Defined.


(** ** Weather *)

Section WeatherFacts.
Context {G : Type} `{PRNG G} `{Libm}.

(** Every generated weather has its temperature in [5, 40], carries the
    step, has the fixed rainfall amount when it rains and none when it
    does not, and is appended to the generator's history. *)
Theorem generate_weather_bounds self step (g : G) :
  let '(w, self', _) := WeatherGenerator.generate_weather self step g in
  5 <= WeatherState.temperature w <= 40
  /\ WeatherState.step w = step
  /\ WeatherState.rainfall_amount w
     = (if WeatherState.is_raining w then WeatherGenerator.rain_amount self else 0)
  /\ WeatherGenerator.weather_history self'
     = WeatherGenerator.weather_history self ++ [w]
  /\ WeatherGenerator.current_step self' = step.
Proof.
  unfold WeatherGenerator.generate_weather, WeatherGenerator._generate_temperature,
    WeatherGenerator._generate_rainfall, bind, ret.
  destruct (rng_gauss 0 (WeatherGenerator.temp_noise_std self) g) as [noise g1].
  destruct (rng_random g1) as [r g2].
  destruct (Qlt_bool r (WeatherGenerator.rain_probability self / 8));
    cbn [WeatherState.temperature WeatherState.step WeatherState.rainfall_amount
         WeatherState.is_raining WeatherGenerator.weather_history
         WeatherGenerator.current_step];
    (split; [apply (clamp_bounds 5 40); lra | repeat split]).
Qed.

(** With a rain probability of 0 or less it never rains. *)
Theorem no_rain_without_probability self step (g : G) :
  WeatherGenerator.rain_probability self <= 0 ->
  let w := (WeatherGenerator.generate_weather self step g).1.1 in
  WeatherState.is_raining w = false /\ WeatherState.rainfall_amount w = 0.
Proof.
  intros Hp.
  unfold WeatherGenerator.generate_weather, WeatherGenerator._generate_temperature,
    WeatherGenerator._generate_rainfall, bind, ret.
  destruct (rng_gauss 0 (WeatherGenerator.temp_noise_std self) g) as [noise g1].
  pose proof (rng_random_range g1) as [Hr _].
  destruct (rng_random g1) as [r g2]. cbn [fst] in Hr.
  assert (Hdry : Qlt_bool r (WeatherGenerator.rain_probability self / 8) = false).
  { apply Qlt_bool_false_iff.
    assert (WeatherGenerator.rain_probability self / 8 <= 0); [| lra].
    apply Qle_shift_div_r; [reflexivity | lra]. }
  rewrite Hdry. cbn. split; reflexivity.
Qed.

End WeatherFacts.

Lemma no_rain_without_probability_witness :
  let gen := WeatherGenerator.mk 10 0 0 0 8 0%Z [] in
  WeatherState.is_raining
    (WeatherGenerator.generate_weather (H0 := flat_libm) gen 3 ([0; 0]%N : Tape.t)).1.1
  = false.
Proof.
  intros gen.
  apply (no_rain_without_probability (H0 := flat_libm) gen 3 ([0; 0]%N : Tape.t)).
  vm_compute. discriminate.
Defined.

(** ** Pump, dispenser and their log *)

Section ActuatorFacts.
Context {G : Type} `{PRNG G}.

(** A pump or dispenser call is decided either by the pending fault or
    by one fresh draw. *)
Lemma pump_pending_or_ready (self : WaterPump.t) (step : Z) :
  (WaterPump.is_failed self = true /\ (step < WaterPump.failure_end_step self)%Z)
  \/ (WaterPump.is_failed self = false
      \/ (WaterPump.failure_end_step self <= step)%Z).
Proof. destruct (WaterPump.is_failed self); [| auto]. lia. Qed.


(** Every irrigation either fails, returning 0 and leaving the usage
    counters alone, or succeeds, returning the configured effect,
    counting one operation and adding the effect to the water used; the
    configured effect and fault probability never change. *)
Theorem irrigate_outcome self pot_id duration step (g : G) :
  let '(effect, self', _) := WaterPump.irrigate self pot_id duration step g in
  WaterPump.water_effect self' = WaterPump.water_effect self
  /\ WaterPump.failure_probability self' = WaterPump.failure_probability self
  /\ ((WaterPump.is_failed self' = true /\ effect = 0
       /\ WaterPump.operation_count self' = WaterPump.operation_count self
       /\ WaterPump.total_water_used self' = WaterPump.total_water_used self)
      \/ (WaterPump.is_failed self' = false
          /\ effect = WaterPump.water_effect self
          /\ WaterPump.operation_count self' = (WaterPump.operation_count self + 1)%Z
          /\ WaterPump.total_water_used self'
             = WaterPump.total_water_used self + WaterPump.water_effect self)).
Proof.
  destruct (pump_pending_or_ready self step) as [[Hf Hlt] | Hready].
  - rewrite irrigate_while_failed by assumption.
    repeat split. left. repeat split. exact Hf.
  - pose proof (irrigate_fresh_draw self pot_id duration step g Hready) as Hcall.
    destruct (rng_random g) as [r g']. rewrite Hcall.
    destruct (Qlt_bool r (WaterPump.failure_probability self)).
    + repeat split. left. repeat split.
    + repeat split. right. repeat split.
Qed.



End ActuatorFacts.

(** ** Sensor readings *)

(** A reading that reports the plant's soil values as they are. *)
Definition exact_reading (w : WeatherState.t) (step : Z) (plant : Plant.t)
  : SensorReading.t :=
  SensorReading.mk (Some (Plant.soil_moisture plant))
                   (Some (Plant.nutrient_level plant))
                   (Some (WeatherState.temperature w)) step.

(** A reading that carries the true temperature and the current step. *)
Definition stamped (w : WeatherState.t) (step : Z) (r : SensorReading.t) : Prop :=
  SensorReading.temperature r = Some (WeatherState.temperature w)
  /\ SensorReading.timestamp r = step.

Section ReadingFacts.
Context {G : Type} `{PRNG G}.

Lemma choice_extreme_values (g : G) :
  (SensorArray.choice_extreme g).1 = 0.95 \/ (SensorArray.choice_extreme g).1 = 0.05.
Proof.
  unfold SensorArray.choice_extreme, bind, ret.
  destruct (rng_choice 2 g) as [[| i] g']; cbn; auto.
Qed.

(** A reading of a failed sensor never misses a value and keeps both
    channels within [0, 1], whatever the true soil state; its
    temperature and time stamp are the true ones. *)
Theorem faulty_reading_in_range plant w step (g : G) :
  let r := (SensorArray._generate_faulty_reading plant w step g).1 in
  (exists m n,
      SensorReading.soil_moisture r = Some m
      /\ SensorReading.nutrient_level r = Some n
      /\ 0 <= m <= 1 /\ 0 <= n <= 1)
  /\ stamped w step r.
Proof.
  unfold SensorArray._generate_faulty_reading, bind, ret.
  destruct (rng_choice 3 g) as [[| [| i]] g1].
  - cbn. split; [| split; reflexivity].
    exists 0.5, 0.5. repeat split; vm_compute; discriminate.
  - destruct (rng_random g1) as [r g2]. cbn. split; [| split; reflexivity].
    eexists _, _. split; [reflexivity |]. split; [reflexivity |].
    split; apply (clamp_bounds 0 1); lra.
  - pose proof (choice_extreme_values g1) as Hm.
    destruct (SensorArray.choice_extreme g1) as [m g2].
    pose proof (choice_extreme_values g2) as Hn.
    destruct (SensorArray.choice_extreme g2) as [n g3].
    cbn in *. split; [| split; reflexivity].
    exists m, n. split; [reflexivity |]. split; [reflexivity |].
    destruct Hm as [-> | ->], Hn as [-> | ->];
      repeat split; vm_compute; discriminate.
Qed.

(** A one-off error reading either misses both soil channels or reports
    0.95 or 0.05 on each; its temperature and time stamp are the true
    ones. *)
Theorem error_reading_shape plant w step (g : G) :
  let r := (SensorArray._generate_error_reading plant w step g).1 in
  ((SensorReading.soil_moisture r = None /\ SensorReading.nutrient_level r = None)
   \/ (exists m n,
          SensorReading.soil_moisture r = Some m
          /\ SensorReading.nutrient_level r = Some n
          /\ (m = 0.95 \/ m = 0.05) /\ (n = 0.95 \/ n = 0.05)))
  /\ stamped w step r.
Proof.
  unfold SensorArray._generate_error_reading, bind, ret.
  destruct (rng_random g) as [r g1].
  destruct (Qlt_bool r 0.5).
  - pose proof (choice_extreme_values g1) as Hm.
    destruct (SensorArray.choice_extreme g1) as [m g2].
    pose proof (choice_extreme_values g2) as Hn.
    destruct (SensorArray.choice_extreme g2) as [n g3].
    cbn in *. split; [| split; reflexivity].
    right. exists m, n. repeat split; assumption.
  - cbn. split; [| split; reflexivity]. left. split; reflexivity.
Qed.

Lemma faulty_reading_stamped plant w step (g : G) :
  stamped w step (SensorArray._generate_faulty_reading plant w step g).1.
Proof.
  unfold SensorArray._generate_faulty_reading, SensorArray.choice_extreme, bind, ret.
  destruct (rng_choice 3 g) as [[| [| i]] g1].
  - split; reflexivity.
  - destruct (rng_random g1) as [r g2]. split; reflexivity.
  - destruct (rng_choice 2 g1) as [i1 g2]. destruct (rng_choice 2 g2) as [i2 g3].
    split; reflexivity.
Qed.

Lemma error_reading_stamped plant w step (g : G) :
  stamped w step (SensorArray._generate_error_reading plant w step g).1.
Proof.
  unfold SensorArray._generate_error_reading, SensorArray.choice_extreme, bind, ret.
  destruct (rng_random g) as [r g1]. destruct (Qlt_bool r 0.5).
  - destruct (rng_choice 2 g1) as [i1 g2]. destruct (rng_choice 2 g2) as [i2 g3].
    split; reflexivity.
  - split; reflexivity.
Qed.

Lemma read_one_stamped self failures w step readings ip (g : G) :
  Forall (stamped w step) readings ->
  Forall (stamped w step)
         (SensorArray.read_one self failures w step readings ip g).1.
Proof.
  intros Hall. unfold SensorArray.read_one. destruct ip as [i plant].
  destruct (failures !! i).
  - unfold bind, ret.
    pose proof (faulty_reading_stamped plant w step g) as Hst.
    destruct (SensorArray._generate_faulty_reading plant w step g) as [r g'].
    cbn [fst] in *. apply Forall_app. split; [exact Hall |].
    constructor; [exact Hst | constructor].
  - unfold bind at 1. destruct (rng_random g) as [e g1].
    destruct (Qlt_bool e (SensorArray.sensor_error_probability self)).
    + unfold bind, ret.
      pose proof (error_reading_stamped plant w step g1) as Hst.
      destruct (SensorArray._generate_error_reading plant w step g1) as [r g'].
      cbn [fst] in *. apply Forall_app. split; [exact Hall |].
      constructor; [exact Hst | constructor].
    + unfold ret. cbn [fst]. apply Forall_app. split; [exact Hall |].
      constructor; [split; reflexivity | constructor].
Qed.

Lemma read_all_stamped self failures w step ips : forall readings (g : G),
  Forall (stamped w step) readings ->
  Forall (stamped w step)
         (for_each (SensorArray.read_one self failures w step) readings ips g).1.
Proof.
  induction ips as [| ip rest IH]; intros readings g Hall; cbn [for_each].
  - exact Hall.
  - unfold bind at 1.
    pose proof (read_one_stamped self failures w step readings ip g Hall) as Hone.
    destruct (SensorArray.read_one self failures w step readings ip g)
      as [readings1 g1].
    apply IH. exact Hone.
Qed.

(** Whatever the faults and errors, every pot reading returned by
    [get_readings] carries the true temperature and the current step,
    and so does the environment reading, whose soil channels are
    absent. *)
Theorem readings_carry_true_temperature self plants w step (g : G) :
  let readings := (SensorArray.get_readings self plants w step g).1.1 in
  Forall (stamped w step) (Readings.pots readings)
  /\ stamped w step (Readings.environment readings)
  /\ SensorReading.soil_moisture (Readings.environment readings) = None
  /\ SensorReading.nutrient_level (Readings.environment readings) = None.
Proof.
  unfold SensorArray.get_readings, bind, ret.
  destruct (SensorArray.trigger self (length plants) step
              (SensorArray.recover (SensorArray.sensor_failures self) step) g)
    as [failures g1].
  match goal with
  | |- context [for_each ?f ?acc ?l g1] =>
      pose proof (read_all_stamped self failures w step l acc g1
                    (List.Forall_nil _)) as Hall;
      destruct (for_each f acc l g1) as [pots g2]
  end.
  cbn [fst] in *. cbn. repeat split. exact Hall.
Qed.

(** With the fault probability at 0 the fault draws add nothing. *)
Lemma trigger_adds_nothing self step pots : forall failures (g : G),
  SensorArray.failure_probability self == 0 ->
  (for_each (SensorArray.trigger_one self step) failures pots g).1 = failures.
Proof.
  induction pots as [| pot rest IH]; intros failures g Hp; cbn [for_each].
  - reflexivity.
  - unfold bind at 1.
    assert (Hone : (SensorArray.trigger_one self step failures pot g).1 = failures).
    { unfold SensorArray.trigger_one. destruct (failures !! pot); [reflexivity |].
      unfold bind, ret. pose proof (random_not_below_zero g _ Hp) as Hr.
      destruct (rng_random g) as [r g']. cbn [fst] in Hr. rewrite Hr. reflexivity. }
    destruct (SensorArray.trigger_one self step failures pot g) as [failures1 g1].
    cbn [fst] in Hone. subst failures1. apply IH. exact Hp.
Qed.

Lemma read_all_exact self w step plants : forall (start : nat) readings (g : G),
  SensorArray.sensor_error_probability self == 0 ->
  (for_each (SensorArray.read_one self ∅ w step) readings
            (zip (seq start (length plants)) plants) g).1
  = readings ++ map (exact_reading w step) plants.
Proof.
  induction plants as [| plant rest IH]; intros start readings g Hp.
  - cbn. rewrite app_nil_r. reflexivity.
  - cbn [length seq zip zip_with for_each map]. unfold bind at 1.
    assert (Hone :
      (SensorArray.read_one self ∅ w step readings (start, plant) g).1
      = readings ++ [exact_reading w step plant]).
    { unfold SensorArray.read_one. rewrite lookup_empty.
      unfold bind, ret. pose proof (random_not_below_zero g _ Hp) as Hr.
      destruct (rng_random g) as [e g']. cbn [fst] in Hr. rewrite Hr. reflexivity. }
    destruct (SensorArray.read_one self ∅ w step readings (start, plant) g)
      as [readings1 g1].
    cbn [fst] in Hone. subst readings1.
    rewrite (IH (S start)) by exact Hp. rewrite <- app_assoc. reflexivity.
Qed.

(** With the fault and error probabilities at 0 and no fault pending
    beyond the current step, the sensors report the soil values of every
    plant exactly, and no fault is pending afterwards. *)
Theorem sensors_exact_without_faults self plants w step (g : G) :
  SensorArray.failure_probability self == 0 ->
  SensorArray.sensor_error_probability self == 0 ->
  (forall pot_id e,
      SensorArray.sensor_failures self !! pot_id = Some e -> (e <= step)%Z) ->
  let '(readings, self', _) := SensorArray.get_readings self plants w step g in
  Readings.pots readings = map (exact_reading w step) plants
  /\ SensorArray.sensor_failures self' = ∅.
Proof.
  intros Hfault Herror Hpending.
  assert (Hrec : SensorArray.recover (SensorArray.sensor_failures self) step = ∅).
  { apply map_empty. intros pot_id. apply recover_lookup_None. apply Hpending. }
  unfold SensorArray.get_readings, SensorArray.trigger, bind, ret. rewrite Hrec.
  pose proof (trigger_adds_nothing self step (seq 0 (length plants)) ∅ g Hfault)
    as Htrig.
  destruct (for_each (SensorArray.trigger_one self step) ∅
                     (seq 0 (length plants)) g) as [failures g1].
  cbn [fst] in Htrig. subst failures.
  pose proof (read_all_exact self w step plants 0 [] g1 Herror) as Hread.
  destruct (for_each (SensorArray.read_one self ∅ w step) []
                     (zip (seq 0 (length plants)) plants) g1) as [pots g2].
  cbn [fst] in Hread. subst pots. cbn. split; reflexivity.
Qed.

End ReadingFacts.

(** A sensor array with faults and errors switched off and one fault
    that ends at step 4 still on record for pot 2. *)
Definition quiet_sensors : SensorArray.t :=
  SensorArray.mk {[2%nat := 4%Z]} 0 0 7%Z.

Lemma quiet_sensors_pending pot_id e :
  SensorArray.sensor_failures quiet_sensors !! pot_id = Some e -> (e <= 4)%Z.
Proof.
  unfold quiet_sensors. cbn [SensorArray.sensor_failures]. intros Hlook.
  apply lookup_singleton_Some in Hlook as [_ <-]. lia.
Qed.

Lemma sensors_exact_without_faults_witness :
  Readings.pots
    (SensorArray.get_readings quiet_sensors [fresh_lettuce; starved_lettuce]
                              mild_weather 4 ([0; 0; 0; 0]%N : Tape.t)).1.1
  = map (exact_reading mild_weather 4) [fresh_lettuce; starved_lettuce].
Proof.
  pose proof (sensors_exact_without_faults quiet_sensors
                [fresh_lettuce; starved_lettuce] mild_weather 4
                ([0; 0; 0; 0]%N : Tape.t)
                (Qeq_refl 0) (Qeq_refl 0) quiet_sensors_pending) as Hexact.
  destruct (SensorArray.get_readings quiet_sensors [fresh_lettuce; starved_lettuce]
              mild_weather 4 ([0; 0; 0; 0]%N : Tape.t)) as [[readings self'] g'].
  destruct Hexact as [Hpots _]. exact Hpots.
Defined.

(** ** Soil balance *)

Lemma effects_on_from pot_id actions : forall acc,
  fold_left
    (fun total action =>
       if bool_decide (DeviceAction.pot_id action = pot_id)
          && Qgt_bool (DeviceAction.actual_effect action) 0
       then total + DeviceAction.actual_effect action
       else total)
    actions acc
  == acc + SoilManager.effects_on pot_id actions.
Proof.
  unfold SoilManager.effects_on.
  induction actions as [| a rest IH]; intros acc; cbn [fold_left].
  - lra.
  - destruct (bool_decide (DeviceAction.pot_id a = pot_id)
              && Qgt_bool (DeviceAction.actual_effect a) 0).
    + pose proof (IH (acc + DeviceAction.actual_effect a)) as H1.
      pose proof (IH (0 + DeviceAction.actual_effect a)) as H2. lra.
    + pose proof (IH acc) as H1. lra.
Qed.

Lemma effects_on_cons pot_id a rest :
  SoilManager.effects_on pot_id (a :: rest)
  == (if bool_decide (DeviceAction.pot_id a = pot_id)
         && Qgt_bool (DeviceAction.actual_effect a) 0
      then DeviceAction.actual_effect a else 0)
     + SoilManager.effects_on pot_id rest.
Proof.
  unfold SoilManager.effects_on at 1. cbn [fold_left].
  destruct (bool_decide (DeviceAction.pot_id a = pot_id)
            && Qgt_bool (DeviceAction.actual_effect a) 0).
  - pose proof (effects_on_from pot_id rest (0 + DeviceAction.actual_effect a)). lra.
  - pose proof (effects_on_from pot_id rest 0). lra.
Qed.

Lemma effects_on_nonneg pot_id actions : 0 <= SoilManager.effects_on pot_id actions.
Proof.
  induction actions as [| a rest IH].
  - unfold SoilManager.effects_on. cbn. lra.
  - rewrite effects_on_cons.
    destruct (bool_decide (DeviceAction.pot_id a = pot_id)) eqn:Hpot;
      destruct (Qgt_bool (DeviceAction.actual_effect a) 0) eqn:Hpos;
      cbn [andb]; try lra.
    apply Qlt_bool_iff in Hpos. lra.
Qed.

(** What a pot receives from the executed actions is never negative, and
    actions that failed (no positive effect) or that target other pots
    contribute nothing to it. *)
Theorem effects_on_counts_successes_only pot_id actions :
  0 <= SoilManager.effects_on pot_id actions
  /\ (Forall (fun a => DeviceAction.pot_id a <> pot_id
                       \/ DeviceAction.actual_effect a <= 0) actions ->
      SoilManager.effects_on pot_id actions == 0).
Proof.
  split; [apply effects_on_nonneg |].
  induction 1 as [| a rest Ha _ IH].
  - unfold SoilManager.effects_on. cbn. lra.
  - rewrite effects_on_cons, IH.
    destruct (bool_decide (DeviceAction.pot_id a = pot_id)) eqn:Hpot;
      destruct (Qgt_bool (DeviceAction.actual_effect a) 0) eqn:Hpos;
      cbn [andb]; try lra.
    apply bool_decide_eq_true in Hpot. apply Qlt_bool_iff in Hpos.
    destruct Ha as [Hne | Hle]; [contradiction | lra].
Qed.

Lemma effects_on_counts_successes_only_witness :
  SoilManager.effects_on 1
    [DeviceAction.mk 1 0%Z 0.5 0 false; DeviceAction.mk 2 0%Z 0.5 0.3 true] == 0.
Proof.
  apply (effects_on_counts_successes_only 1).
  constructor; [right; cbn; lra |].
  constructor; [left; cbn; lia | constructor].
Defined.

(** Without rain and without a successful watering of the pot, the soil
    moisture of a pot never rises in a step. *)
Theorem moisture_never_rises_unaided self soil w da plant :
  WeatherState.is_raining w = false ->
  SoilManager.effects_on (SoilState.pot_id soil) (DeviceActions.water da) == 0 ->
  0 <= SoilManager.evaporation_rate self ->
  (forall p, plant = Some p -> 0 <= Plant.biomass p) ->
  0 <= SoilState.moisture soil ->
  SoilState.moisture (SoilManager._update_moisture_simple self soil w da plant)
  <= SoilState.moisture soil.
Proof.
  intros Hdry Hnone Hevap Hplant Hm.
  unfold SoilManager._update_moisture_simple. lazy zeta.
  cbn [SoilState.moisture]. rewrite Hdry.
  set (irrigation := SoilManager.effects_on _ _) in *.
  set (m := SoilState.moisture soil) in *.
  set (e := SoilManager.evaporation_rate self) in *.
  assert (Htemp : 0 <= Qmax 0 ((WeatherState.temperature w - 25) * 0.02))
    by apply Q.le_max_l.
  set (t := Qmax 0 ((WeatherState.temperature w - 25) * 0.02)) in *.
  assert (Hbase : 0 <= e * (1 + t)) by (apply Qmult_le_0_compat; lra).
  assert (Hcons :
    0 <= match plant with
         | Some p =>
             if Plant.is_alive p
             then 0.01 * (Plant.biomass p / 5) * (Plant.health p / 100)
             else 0
         | None => 0
         end).
  { destruct plant as [p |]; [| lra].
    destruct (Plant.is_alive p) eqn:Halive; [| lra].
    unfold Plant.is_alive in Halive. apply andb_true_iff in Halive as [_ Hh].
    apply Qlt_bool_iff in Hh. specialize (Hplant p eq_refl).
    assert (0 <= Plant.biomass p / 5) by (apply Qle_shift_div_l; [reflexivity | lra]).
    assert (0 <= Plant.health p / 100) by (apply Qle_shift_div_l; [reflexivity | lra]).
    apply Qmult_le_0_compat; [apply Qmult_le_0_compat; [lra | assumption] | assumption]. }
  match type of Hcons with 0 <= ?c => set (pc := c) in * end.
  apply Q.max_lub; [exact Hm |].
  eapply Qle_trans; [apply Q.le_min_r |]. lra.
Qed.

Lemma moisture_never_rises_unaided_witness :
  SoilState.moisture
    (SoilManager._update_moisture_simple tended_soil (SoilState.mk 0.6 0.6 0)
       mild_weather (DeviceActions.mk [] []) (Some fresh_lettuce))
  <= 0.6.
Proof.
  apply (moisture_never_rises_unaided tended_soil (SoilState.mk 0.6 0.6 0)
           mild_weather (DeviceActions.mk [] []) (Some fresh_lettuce)).
  - reflexivity.
  - reflexivity.
  - vm_compute. discriminate.
  - intros p [= <-]. vm_compute. discriminate.
  - vm_compute. discriminate.
Defined.

(** ** History buffers *)

Definition sensor_buffers_bounded
           (history : gmap nat (list SensorHistoryEntry.t)) : Prop :=
  forall pot_id entries,
    history !! pot_id = Some entries -> (length entries <= 24)%nat.

Definition action_buffers_bounded
           (history : gmap nat (list ActionHistoryEntry.t)) : Prop :=
  forall pot_id entries,
    history !! pot_id = Some entries -> (length entries <= 48)%nat.

Lemma log_reading_bounded step history ir :
  sensor_buffers_bounded history ->
  sensor_buffers_bounded (StateManager.log_reading step history ir).
Proof.
  intros Hinv. unfold StateManager.log_reading. destruct ir as [pot reading].
  lazy zeta. intros pot_id entries.
  destruct (decide (pot_id = pot)) as [-> | Hne].
  - rewrite lookup_insert_eq. intros [= <-].
    assert (Hold : (length (default [] (history !! pot)) <= 24)%nat).
    { destruct (history !! pot) as [old |] eqn:Hlook; cbn; [| lia].
      exact (Hinv pot old Hlook). }
    generalize dependent (default [] (history !! pot)). intros old Hold.
    destruct (24 <? length (old ++ [_]))%nat eqn:Hlen.
    + rewrite length_drop, length_app. cbn. lia.
    + apply Nat.ltb_ge in Hlen. exact Hlen.
  - rewrite lookup_insert_ne by congruence. apply Hinv.
Qed.

Lemma log_readings_bounded step irs : forall history,
  sensor_buffers_bounded history ->
  sensor_buffers_bounded (fold_left (StateManager.log_reading step) irs history).
Proof.
  induction irs as [| ir rest IH]; intros history Hinv; cbn [fold_left].
  - exact Hinv.
  - apply IH. apply log_reading_bounded. exact Hinv.
Qed.

Lemma log_actions_bounded step decisions history pot :
  action_buffers_bounded history ->
  action_buffers_bounded (StateManager.log_actions step decisions history pot).
Proof.
  intros Hinv. unfold StateManager.log_actions. lazy zeta. intros pot_id entries.
  destruct (decide (pot_id = pot)) as [-> | Hne].
  - rewrite lookup_insert_eq. intros [= <-].
    match goal with
    | |- context [(48 <? length ?l)%nat] => generalize l
    end.
    intros l. destruct (48 <? length l)%nat eqn:Hlen.
    + unfold last_n. rewrite length_drop. apply Nat.ltb_lt in Hlen. lia.
    + apply Nat.ltb_ge in Hlen. exact Hlen.
  - rewrite lookup_insert_ne by congruence. apply Hinv.
Qed.

Lemma log_all_actions_bounded step decisions pots : forall history,
  action_buffers_bounded history ->
  action_buffers_bounded
    (fold_left (StateManager.log_actions step decisions) pots history).
Proof.
  induction pots as [| pot rest IH]; intros history Hinv; cbn [fold_left].
  - exact Hinv.
  - apply IH. apply log_actions_bounded. exact Hinv.
Qed.

(** Logging a step keeps every sensor buffer within 24 entries and every
    action buffer within 48, and appends the step to the history. *)
Theorem history_buffers_stay_bounded self step_result :
  sensor_buffers_bounded (StateManager.sensor_history self) ->
  action_buffers_bounded (StateManager.action_history self) ->
  let self' := StateManager.log_step self step_result in
  sensor_buffers_bounded (StateManager.sensor_history self')
  /\ action_buffers_bounded (StateManager.action_history self')
  /\ StateManager.simulation_history self'
     = StateManager.simulation_history self ++ [step_result].
Proof.
  intros Hs Ha self'. subst self'. unfold StateManager.log_step. lazy zeta.
  cbn [StateManager.sensor_history StateManager.action_history
       StateManager.simulation_history].
  split; [apply log_readings_bounded; exact Hs |].
  split; [apply log_all_actions_bounded; exact Ha | reflexivity].
Qed.

Lemma empty_sensor_buffers : sensor_buffers_bounded ∅.
Proof. intros pot_id entries Hlook. rewrite lookup_empty in Hlook. discriminate. Qed.

Lemma empty_action_buffers : action_buffers_bounded ∅.
Proof. intros pot_id entries Hlook. rewrite lookup_empty in Hlook. discriminate. Qed.

Lemma history_buffers_stay_bounded_witness :
  let result :=
    StepResult.mk 0 mild_weather [] []
      (Readings.mk [exact_reading mild_weather 0 fresh_lettuce]
                   (SensorReading.mk None None (Some 20) 0%Z))
      (Decisions.mk [Decision.mk 0 0.5] []) (DeviceActions.mk [] []) 0 in
  sensor_buffers_bounded
    (StateManager.sensor_history (StateManager.log_step StateManager.init result)).
Proof.
  intros result.
  apply (history_buffers_stay_bounded StateManager.init result).
  - exact empty_sensor_buffers.
  - exact empty_action_buffers.
Defined.

(** ** Scoring components *)

Lemma Qsum_from l : forall acc, fold_left Qplus l acc == acc + Qsum l.
Proof.
  unfold Qsum. induction l as [| x rest IH]; intros acc; cbn [fold_left].
  - lra.
  - pose proof (IH (acc + x)). pose proof (IH (0 + x)). lra.
Qed.

Lemma Qsum_cons x l : Qsum (x :: l) == x + Qsum l.
Proof. unfold Qsum at 1. cbn [fold_left]. pose proof (Qsum_from l (0 + x)). lra. Qed.

Lemma Qsum_bounds (lo hi : Q) l :
  Forall (fun x => lo <= x /\ x <= hi) l ->
  lo * Qof_nat (length l) <= Qsum l /\ Qsum l <= hi * Qof_nat (length l).
Proof.
  induction 1 as [| x rest [Hlo Hhi] _ [IHlo IHhi]].
  - unfold Qsum, Qof_nat. cbn [length fold_left Z.of_nat].
    change (inject_Z (Z.of_nat 0)) with 0. split; lra.
  - rewrite Qsum_cons. cbn [length].
    assert (Hn : Qof_nat (S (length rest)) == Qof_nat (length rest) + 1).
    { unfold Qof_nat. rewrite Nat2Z.inj_succ, <- Z.add_1_r, inject_Z_plus. reflexivity. }
    rewrite Hn. split; lra.
Qed.

(** The excess moisture of the plants, as the penalty loop sums it. *)
Definition saturation_excess (plants : list Plant.t) : Q :=
  Qsum (map (fun p => Qmax 0 (Plant.soil_moisture p - 1) * 50) plants).

Lemma saturation_loop plants : forall penalty,
  fold_left
    (fun penalty plant =>
       if Qgt_bool (Plant.soil_moisture plant) 1 then
         let excess := Plant.soil_moisture plant - 1 in
         penalty + excess * 50
       else penalty)
    plants penalty
  == penalty + saturation_excess plants.
Proof.
  unfold saturation_excess.
  induction plants as [| p rest IH]; intros penalty; cbn [fold_left map].
  - unfold Qsum. cbn. lra.
  - rewrite Qsum_cons.
    destruct (Qgt_bool (Plant.soil_moisture p) 1) eqn:Hwet.
    + apply Qlt_bool_iff in Hwet. lazy zeta.
      pose proof (IH (penalty + (Plant.soil_moisture p - 1) * 50)) as Hrest.
      rewrite (Q.max_r 0 (Plant.soil_moisture p - 1)) by lra. lra.
    + apply Qlt_bool_false_iff in Hwet.
      pose proof (IH penalty) as Hrest.
      rewrite (Q.max_l 0 (Plant.soil_moisture p - 1)) by lra. lra.
Qed.

(** The penalty in closed form: the dead plants times the death
    constant, the actions beyond 10 waterings and 15 fertilizations
    times the over-use constants, plus 50 times the moisture above 1.0
    of every plant. *)
Theorem penalty_closed_form self plants decisions device_actions :
  let dead := length (filter (fun p => Plant.is_alive p = false) plants) in
  let waterings := length (DeviceActions.water device_actions) in
  let fertilizations := length (DeviceActions.fertilize device_actions) in
  EvaluationEngine._calculate_penalties_enhanced self plants decisions device_actions
  == Qof_nat dead * EvaluationEngine.p_plant_death self
     + Qmax 0 (Qof_nat waterings - 10) * EvaluationEngine.p_overwatering self
     + Qmax 0 (Qof_nat fertilizations - 15) * EvaluationEngine.p_overfertilizing self
     + saturation_excess plants.
Proof.
  intros dead waterings fertilizations.
  unfold EvaluationEngine._calculate_penalties_enhanced. lazy zeta.
  rewrite saturation_loop. fold dead waterings fertilizations.
  assert (Hw : forall n k : nat,
             Qmax 0 (Qof_nat n - inject_Z (Z.of_nat k))
             == if (k <? n)%nat then Qof_nat n - inject_Z (Z.of_nat k) else 0).
  { intros n k. unfold Qof_nat.
    assert (Hd : inject_Z (Z.of_nat n) - inject_Z (Z.of_nat k)
                 == inject_Z (Z.of_nat n - Z.of_nat k)).
    { unfold Z.sub. rewrite inject_Z_plus, inject_Z_opp. reflexivity. }
    destruct (k <? n)%nat eqn:Hkn.
    - apply Nat.ltb_lt in Hkn. apply Q.max_r.
      rewrite Hd. change 0 with (inject_Z 0). rewrite <- Zle_Qle. lia.
    - apply Nat.ltb_ge in Hkn. apply Q.max_l.
      rewrite Hd. change 0 with (inject_Z 0). rewrite <- Zle_Qle. lia. }
  pose proof (Hw waterings 10%nat) as Hw10.
  pose proof (Hw fertilizations 15%nat) as Hw15.
  change (inject_Z (Z.of_nat 10)) with 10 in Hw10.
  change (inject_Z (Z.of_nat 15)) with 15 in Hw15.
  rewrite Hw10, Hw15.
  destruct (10 <? waterings)%nat; destruct (15 <? fertilizations)%nat; lra.
Qed.

(** The score is never negative, and it is the [final_score] of the
    record appended to the score history, next to the step and the
    numbers of executed actions. *)
Theorem score_is_recorded self step plants decisions device_actions :
  let '(score, self') :=
    EvaluationEngine.calculate_score self step plants decisions device_actions in
  0 <= score
  /\ exists record,
      EvaluationEngine.score_history self'
      = EvaluationEngine.score_history self ++ [record]
      /\ ScoreRecord.final_score record = score
      /\ ScoreRecord.step record = step
      /\ score == Qmax 0 (ScoreRecord.base_score record + ScoreRecord.penalty record)
      /\ ScoreRecord.water_actions record = length (DeviceActions.water device_actions)
      /\ ScoreRecord.fertilize_actions record
         = length (DeviceActions.fertilize device_actions).
Proof.
  unfold EvaluationEngine.calculate_score. lazy zeta.
  split; [apply Q.le_max_l |].
  eexists. cbn [EvaluationEngine.score_history]. split; [reflexivity |].
  cbn. repeat split; reflexivity.
Qed.

Lemma alive_health_positive p : Plant.is_alive p = true -> 0 < Plant.health p.
Proof.
  unfold Plant.is_alive. intros Halive.
  apply andb_true_iff in Halive as [_ Hh]. apply Qlt_bool_iff in Hh. exact Hh.
Qed.

Lemma Qof_nat_pos n : (0 < n)%nat -> 0 < Qof_nat n.
Proof.
  intros Hn. unfold Qof_nat. change 0 with (inject_Z 0). rewrite <- Zlt_Qlt. lia.
Qed.

Lemma no_plant_alive plants :
  Forall (fun p => Plant.is_alive p = false) plants ->
  filter (fun p => Plant.is_alive p = true) plants = [].
Proof.
  induction 1 as [| p rest Hp _ IH]; [reflexivity |].
  rewrite filter_cons. destruct (decide (Plant.is_alive p = true)); [congruence | exact IH].
Qed.

(** The health component of the score is the mean health of the living
    plants: it lies between 0 and 100 when no plant is healthier than
    100, and it is 0 when no plant is alive; the biomass component never
    exceeds 100. *)
Theorem score_components_bounded plants :
  Forall (fun p => Plant.health p <= 100) plants ->
  0 <= EvaluationEngine._calculate_health_score plants
  /\ EvaluationEngine._calculate_health_score plants <= 100
  /\ EvaluationEngine._calculate_biomass_score plants <= 100
  /\ (Forall (fun p => Plant.is_alive p = false) plants ->
      EvaluationEngine._calculate_health_score plants = 0).
Proof.
  intros Hmax.
  assert (Hbio : EvaluationEngine._calculate_biomass_score plants <= 100)
    by (unfold EvaluationEngine._calculate_biomass_score; apply Q.le_min_l).
  unfold EvaluationEngine._calculate_health_score.
  destruct plants as [| p0 rest]; [repeat split; try lra; exact Hbio |].
  lazy zeta.
  assert (Halive :
    Forall (fun x => 0 <= x /\ x <= 100)
           (map Plant.health
                (filter (fun p => Plant.is_alive p = true) (p0 :: rest)))).
  { apply Forall_map. apply Forall_forall. intros p Hin.
    apply list_elem_of_filter in Hin as [Hp Hin].
    rewrite Forall_forall in Hmax. specialize (Hmax p Hin). cbn beta in *.
    pose proof (alive_health_positive p Hp). split; lra. }
  pose proof (no_plant_alive (p0 :: rest)) as Hnone.
  destruct (filter (fun p => Plant.is_alive p = true) (p0 :: rest))
    as [| a alive] eqn:Hfilter.
  - repeat split; try lra; exact Hbio.
  - apply Qsum_bounds in Halive as [Hlo Hhi]. rewrite length_map in Hlo, Hhi.
    assert (Hn : 0 < Qof_nat (length (a :: alive)))
      by (apply Qof_nat_pos; cbn; lia).
    repeat split.
    + apply Qle_shift_div_l; [exact Hn | lra].
    + apply Qle_shift_div_r; [exact Hn | lra].
    + exact Hbio.
    + intros Hdead. specialize (Hnone Hdead). discriminate.
Qed.

Lemma score_components_bounded_witness :
  0 <= EvaluationEngine._calculate_health_score [fresh_lettuce; starved_lettuce]
  /\ EvaluationEngine._calculate_health_score [fresh_lettuce; starved_lettuce] <= 100.
Proof.
  destruct (score_components_bounded [fresh_lettuce; starved_lettuce])
    as (Hlo & Hhi & _).
  - constructor; [vm_compute; discriminate |].
    constructor; [vm_compute; discriminate | constructor].
  - split; [exact Hlo | exact Hhi].
Defined.

(** ** Decisions of a step *)

Definition water_request (pot_id : nat) : Decision.t := Decision.mk pot_id 0.5.
Definition fertilize_request (pot_id : nat) : Decision.t := Decision.mk pot_id 1.

(** One pot adds at most one request of each kind, for that pot. *)
Lemma decide_pot_adds self readings w decisions pot_id :
  let decisions' := GardenSimulator.decide_pot self readings w decisions pot_id in
  (Decisions.water decisions' = Decisions.water decisions
   \/ Decisions.water decisions'
      = Decisions.water decisions ++ [water_request pot_id])
  /\ (Decisions.fertilize decisions' = Decisions.fertilize decisions
      \/ Decisions.fertilize decisions'
         = Decisions.fertilize decisions ++ [fertilize_request pot_id]).
Proof.
  unfold GardenSimulator.decide_pot.
  destruct (Readings.pots readings !! pot_id); [| auto].
  destruct (GardenSimulator.plants self !! pot_id); [| auto].
  lazy zeta.
  destruct (GardenSimulator.should_water self _) as [[|] |]; [| | auto];
    (destruct (GardenSimulator.should_fertilize self _) as [[|] |]; [| | auto]);
    cbn; auto.
Qed.

Lemma decide_pots_sublist self readings w pots : forall decisions,
  let decisions' :=
    fold_left (GardenSimulator.decide_pot self readings w) pots decisions in
  exists watered fertilized,
    watered `sublist_of` pots /\ fertilized `sublist_of` pots
    /\ Decisions.water decisions'
       = Decisions.water decisions ++ map water_request watered
    /\ Decisions.fertilize decisions'
       = Decisions.fertilize decisions ++ map fertilize_request fertilized.
Proof.
  induction pots as [| pot rest IH]; intros decisions; cbn [fold_left].
  - exists [], []. cbn. rewrite !app_nil_r. repeat split; constructor.
  - destruct (decide_pot_adds self readings w decisions pot) as [Hw Hf].
    destruct (IH (GardenSimulator.decide_pot self readings w decisions pot))
      as (watered & fertilized & Hsw & Hsf & Hwater & Hfert).
    cbv zeta. rewrite Hwater, Hfert.
    destruct Hw as [-> | ->], Hf as [-> | ->].
    + exists watered, fertilized.
      repeat split; apply sublist_cons; assumption.
    + exists watered, (pot :: fertilized). cbn [map]. rewrite <- app_assoc.
      repeat split; [apply sublist_cons | apply sublist_skip]; assumption.
    + exists (pot :: watered), fertilized. cbn [map]. rewrite <- app_assoc.
      repeat split; [apply sublist_skip | apply sublist_cons]; assumption.
    + exists (pot :: watered), (pot :: fertilized). cbn [map].
      rewrite <- !app_assoc. repeat split; apply sublist_skip; assumption.
Qed.

(** The requests of a step name pots 0 to 4 in increasing order, each at
    most once per kind, always with duration 0.5 and amount 1.0: no step
    asks for more than five waterings or five fertilizations. *)
Theorem decisions_one_per_pot self readings w :
  let decisions :=
    GardenSimulator._make_student_decisions_with_history self readings w in
  exists watered fertilized,
    watered `sublist_of` seq 0 5 /\ fertilized `sublist_of` seq 0 5
    /\ Decisions.water decisions = map water_request watered
    /\ Decisions.fertilize decisions = map fertilize_request fertilized
    /\ (length (Decisions.water decisions) <= 5)%nat
    /\ (length (Decisions.fertilize decisions) <= 5)%nat.
Proof.
  unfold GardenSimulator._make_student_decisions_with_history.
  destruct (decide_pots_sublist self readings w (seq 0 5) (Decisions.mk [] []))
    as (watered & fertilized & Hsw & Hsf & Hwater & Hfert).
  cbv zeta. exists watered, fertilized. cbn [Decisions.water Decisions.fertilize app] in *.
  rewrite Hwater, Hfert, !length_map.
  repeat split; try assumption.
  - apply sublist_length in Hsw. rewrite length_seq in Hsw. exact Hsw.
  - apply sublist_length in Hsf. rewrite length_seq in Hsf. exact Hsf.
Qed.

Lemma decide_pots_raising self readings w pots : forall decisions,
  (forall state, GardenSimulator.should_water self state = None)
  \/ (forall state, GardenSimulator.should_fertilize self state = None) ->
  fold_left (GardenSimulator.decide_pot self readings w) pots decisions = decisions.
Proof.
  induction pots as [| pot rest IH]; intros decisions Hraise; cbn [fold_left].
  - reflexivity.
  - assert (Hone : GardenSimulator.decide_pot self readings w decisions pot = decisions).
    { unfold GardenSimulator.decide_pot.
      destruct (Readings.pots readings !! pot); [| reflexivity].
      destruct (GardenSimulator.plants self !! pot); [| reflexivity].
      lazy zeta. destruct Hraise as [Hw | Hf].
      - rewrite Hw. reflexivity.
      - rewrite Hf. destruct (GardenSimulator.should_water self _); reflexivity. }
    rewrite Hone. apply IH. exact Hraise.
Qed.

(** A policy function that raises means no action: when [should_water]
    raises on every state nothing is requested, and when
    [should_fertilize] raises nothing is requested either, not even the
    waterings that [should_water] asked for. *)
Theorem raising_policy_requests_nothing self readings w :
  (forall state, GardenSimulator.should_water self state = None)
  \/ (forall state, GardenSimulator.should_fertilize self state = None) ->
  GardenSimulator._make_student_decisions_with_history self readings w
  = Decisions.mk [] [].
Proof.
  intros Hraise. unfold GardenSimulator._make_student_decisions_with_history.
  apply decide_pots_raising. exact Hraise.
Qed.

Lemma raising_policy_requests_nothing_witness :
  let sim :=
    GardenSimulator.register_student_functions
      (GardenSimulator.init sample_config sample_config)
      (fun _ => Some true) (fun _ => None) in
  GardenSimulator._make_student_decisions_with_history
    sim (Readings.mk (map (exact_reading mild_weather 0) (GardenSimulator.plants sim))
                     (SensorReading.mk None None (Some 20) 0%Z))
    mild_weather
  = Decisions.mk [] [].
Proof.
  intros sim. apply (raising_policy_requests_nothing sim).
  right. intros state. reflexivity.
Defined.

(** ** Results of a step and of a run *)

Lemma decisions_at_most_five self readings w :
  let decisions :=
    GardenSimulator._make_student_decisions_with_history self readings w in
  (length (Decisions.water decisions) <= 5)%nat
  /\ (length (Decisions.fertilize decisions) <= 5)%nat.
Proof.
  unfold GardenSimulator._make_student_decisions_with_history.
  destruct (decide_pots_sublist self readings w (seq 0 5) (Decisions.mk [] []))
    as (watered & fertilized & Hsw & Hsf & Hwater & Hfert).
  cbv zeta. cbn [Decisions.water Decisions.fertilize app] in *.
  rewrite Hwater, Hfert, !length_map.
  apply sublist_length in Hsw, Hsf. rewrite length_seq in Hsw, Hsf.
  split; assumption.
Qed.

Section StepFacts.
Context {G : Type} `{PRNG G} `{Libm}.

(** How the parts of a step result come about. *)
Lemma step_simulation_state self step (g : G) :
  let '(result, self', _) := GardenSimulator.step_simulation self step g in
  exists self0 readings device_actions,
    let w := StepResult.weather result in
    StepResult.student_decisions result
    = GardenSimulator._make_student_decisions_with_history self0 readings w
    /\ StepResult.device_actions result = device_actions
    /\ GardenSimulator.soil_manager self'
       = SoilManager.update_soil (GardenSimulator.soil_manager self) w
                                 device_actions (GardenSimulator.plants self)
    /\ StepResult.soil_states result
       = SoilManager.soil_states (GardenSimulator.soil_manager self')
    /\ StepResult.plant_states result
       = (imap (GardenSimulator.update_plant (GardenSimulator.soil_manager self')
                                             w step)
               (GardenSimulator.plants self)).*1
    /\ GardenSimulator.plants self'
       = (imap (GardenSimulator.update_plant (GardenSimulator.soil_manager self')
                                             w step)
               (GardenSimulator.plants self)).*2.
Proof.
  destruct (GardenSimulator.step_simulation self step g) as [[result self'] g'] eqn:E.
  unfold GardenSimulator.step_simulation, bind, ret in E.
  destruct_pairs E. injection E as <- <- _.
  eexists _, _, _. cbn. repeat split.
Qed.

(** No step executes more than five waterings or five fertilizations, so
    the thresholds of 10 and 15 actions above which the over-use
    penalties apply are never exceeded by the actions of a step. *)
Theorem step_executes_at_most_five self step (g : G) :
  let result := (GardenSimulator.step_simulation self step g).1.1 in
  (length (DeviceActions.water (StepResult.device_actions result)) <= 5)%nat
  /\ (length (DeviceActions.fertilize (StepResult.device_actions result)) <= 5)%nat.
Proof.
  pose proof (step_simulation_frame self step g) as Hframe.
  pose proof (step_simulation_state self step g) as Hstate.
  destruct (GardenSimulator.step_simulation self step g) as [[result self'] g'].
  cbn [fst].
  destruct Hframe as (_ & _ & _ & _ & _ & _ & _ & [Hw Hf]).
  destruct Hstate as (self0 & readings & da & Hdec & _).
  cbv zeta in Hdec. rewrite Hw, Hf, Hdec.
  apply decisions_at_most_five.
Qed.

End StepFacts.

Lemma update_soil_lookup self w da plants i :
  SoilManager.soil_states (SoilManager.update_soil self w da plants) !! i
  = SoilManager.update_pot self w da plants i <$> SoilManager.soil_states self !! i.
Proof.
  unfold SoilManager.update_soil. cbn [SoilManager.soil_states].
  apply list_lookup_imap.
Qed.

Lemma update_pot_bounds self w da plants i soil :
  let soil' := SoilManager.update_pot self w da plants i soil in
  (0 <= SoilState.moisture soil' <= 1.3 /\ 0 <= SoilState.nutrients soil' <= 1.5)
  /\ SoilState.pot_id soil' = SoilState.pot_id soil.
Proof.
  unfold SoilManager.update_pot. cbv zeta. split; [split |].
  - unfold SoilManager._update_nutrients_simple at 1 2. cbn [SoilState.moisture].
    apply update_moisture_range.
  - apply update_nutrients_range.
  - reflexivity.
Qed.

(** The snapshot made in the plant loop for a pot that has a soil state:
    clamped health, and the moisture and nutrients of that soil. *)
Lemma update_plant_status sm w step i plant soil :
  SoilManager.get_soil_state sm i = Some soil ->
  let status := (GardenSimulator.update_plant sm w step i plant).1 in
  (0 <= PlantStatus.health status /\ PlantStatus.health status <= 100)
  /\ PlantStatus.soil_moisture status = SoilState.moisture soil
  /\ PlantStatus.nutrient_level status = SoilState.nutrients soil.
Proof.
  intros Hsoil. unfold GardenSimulator.update_plant. rewrite Hsoil. lazy zeta.
  match goal with
  | |- context [Plant.update ?p ?w0 ?s ?st] =>
      destruct (update_status_health p w0 s st) as (Hlo & Hhi & _);
      destruct (update_status_soil p w0 s st) as (Hm & Hn & _);
      generalize dependent (Plant.update p w0 s st)
  end.
  intros [status plant'] Hlo Hhi Hm Hn. cbn [fst] in *.
  cbn [SoilDict.moisture SoilDict.nutrients default] in Hm, Hn.
  repeat split; assumption.
Qed.

Section StepBounds.
Context {G : Type} `{PRNG G} `{Libm}.

(** In every step result, each pot's soil is within its bounds and keeps
    its number; when every plant has a pot, there is one snapshot per
    plant, its health is within [0, 100] and its moisture and nutrient
    values are those of the pot's soil at the end of the step. *)
Theorem step_result_within_bounds self step (g : G) :
  (length (GardenSimulator.plants self)
   <= length (SoilManager.soil_states (GardenSimulator.soil_manager self)))%nat ->
  let result := (GardenSimulator.step_simulation self step g).1.1 in
  Forall (fun soil =>
            0 <= SoilState.moisture soil <= 1.3
            /\ 0 <= SoilState.nutrients soil <= 1.5)
         (StepResult.soil_states result)
  /\ map SoilState.pot_id (StepResult.soil_states result)
     = map SoilState.pot_id
           (SoilManager.soil_states (GardenSimulator.soil_manager self))
  /\ length (StepResult.plant_states result) = length (GardenSimulator.plants self)
  /\ (forall i status,
         StepResult.plant_states result !! i = Some status ->
         (0 <= PlantStatus.health status /\ PlantStatus.health status <= 100)
         /\ exists soil,
             StepResult.soil_states result !! i = Some soil
             /\ PlantStatus.soil_moisture status = SoilState.moisture soil
             /\ PlantStatus.nutrient_level status = SoilState.nutrients soil).
Proof.
  intros Hpots.
  pose proof (step_simulation_state self step g) as Hstate.
  destruct (GardenSimulator.step_simulation self step g) as [[result self'] g'].
  cbn [fst]. destruct Hstate as (self0 & readings & da & _ & _ & Hsm & Hsoils & Hplants & _).
  cbv zeta in *. rewrite Hsoils, Hplants, Hsm.
  set (w := StepResult.weather result) in *.
  set (sm := GardenSimulator.soil_manager self) in *.
  set (plants := GardenSimulator.plants self) in *.
  split; [| split; [| split]].
  - apply Forall_lookup_2. intros i soil Hi. rewrite update_soil_lookup in Hi.
    destruct (SoilManager.soil_states sm !! i) as [soil0 |]; [| discriminate].
    injection Hi as <-. apply update_pot_bounds.
  - apply list_eq. intros i. rewrite !list_lookup_fmap, update_soil_lookup.
    destruct (SoilManager.soil_states sm !! i) as [soil0 |]; [| reflexivity].
    cbn. reflexivity.
  - rewrite length_fmap, length_imap. reflexivity.
  - intros i status Hi. rewrite list_lookup_fmap, list_lookup_imap in Hi.
    destruct (plants !! i) as [plant |] eqn:Hplant; [| discriminate].
    cbn in Hi. injection Hi as <-.
    assert (Hlt : (i < length (SoilManager.soil_states sm))%nat).
    { apply lookup_lt_Some in Hplant. lia. }
    apply lookup_lt_is_Some_2 in Hlt as [soil0 Hsoil0].
    assert (Hsoil :
      SoilManager.get_soil_state (SoilManager.update_soil sm w da plants) i
      = Some (SoilManager.update_pot sm w da plants i soil0)).
    { unfold SoilManager.get_soil_state. rewrite update_soil_lookup, Hsoil0.
      reflexivity. }
    destruct (update_plant_status _ w step i plant _ Hsoil) as (Hh & Hm & Hn).
    split; [exact Hh |]. eexists. split; [| split; [exact Hm | exact Hn]].
    rewrite update_soil_lookup, Hsoil0. reflexivity.
Qed.

Lemma successes_within_requests results :
  Forall counts_agree results ->
  (sum_list (map (fun s =>
                    length (filter (fun a => DeviceAction.success a = true)
                                   (DeviceActions.water (StepResult.device_actions s))))
                 results)
   <= sum_list (map (fun s => length (Decisions.water (StepResult.student_decisions s)))
                    results))%nat
  /\ (sum_list (map (fun s =>
                       length (filter (fun a => DeviceAction.success a = true)
                                      (DeviceActions.fertilize (StepResult.device_actions s))))
                    results)
      <= sum_list (map (fun s => length (Decisions.fertilize (StepResult.student_decisions s)))
                       results))%nat.
Proof.
  induction 1 as [| s rest [Hw Hf] _ [IHw IHf]]; [split; reflexivity |].
  cbn [map sum_list sum_list_with].
  unfold id. split.
  - apply Nat.add_le_mono; [| exact IHw]. rewrite <- Hw. apply length_filter.
  - apply Nat.add_le_mono; [| exact IHf]. rewrite <- Hf. apply length_filter.
Qed.

(** A run records the steps 0, 1, ..., n - 1 in order.  It has no report
    when n is 0 (or negative); otherwise the report counts n steps and
    n // 8 days, carries the score of the last step, and its successful
    action counts never exceed its total action counts. *)
Theorem run_report_shape self total_steps (g : G) :
  let n :=
    Z.to_nat (match total_steps with
              | None => Config.total_steps (GardenSimulator.config self)
              | Some n => n
              end) in
  let '(report, self', _) := GardenSimulator.run_simulation self total_steps g in
  map StepResult.step (GardenSimulator.step_results self') = map Z.of_nat (seq 0 n)
  /\ (report = None <-> n = 0%nat)
  /\ (forall r, report = Some r ->
        Report.total_steps r = n
        /\ Report.total_days r = (n / 8)%nat
        /\ Some (Report.final_score r)
           = StepResult.score <$> last (GardenSimulator.step_results self')
        /\ (Report.successful_water_actions r <= Report.total_water_actions r)%nat
        /\ (Report.successful_fertilize_actions r
            <= Report.total_fertilize_actions r)%nat).
Proof.
  intros n.
  pose proof (run_simulation_results self total_steps g) as Hrun.
  destruct (GardenSimulator.run_simulation self total_steps g) as [[report self'] g'].
  cbv zeta in Hrun. fold n in Hrun. destruct Hrun as (-> & Hsteps & Hcounts).
  assert (Hlen : length (GardenSimulator.step_results self') = n).
  { rewrite <- (length_map StepResult.step), Hsteps, length_map, length_seq.
    reflexivity. }
  split; [exact Hsteps |].
  unfold GardenSimulator._generate_final_report.
  destruct (last (GardenSimulator.step_results self')) as [final |] eqn:Hlast.
  - split.
    + split; [discriminate |]. intros Hn. rewrite Hn in Hlen.
      apply nil_length_inv in Hlen. rewrite Hlen in Hlast. discriminate.
    + intros r [= <-].
      cbn [Report.total_steps Report.total_days Report.final_score
           Report.successful_water_actions Report.total_water_actions
           Report.successful_fertilize_actions Report.total_fertilize_actions].
      rewrite Hlen. repeat split; apply successes_within_requests; exact Hcounts.
  - split.
    + split; [intros _ | reflexivity]. apply last_None in Hlast.
      rewrite Hlast in Hlen. cbn in Hlen. congruence.
    + intros r Hr. discriminate.
Qed.

End StepBounds.

Lemma step_result_within_bounds_witness :
  let sim := GardenSimulator.init sample_config sample_config in
  length
    (StepResult.plant_states
       (GardenSimulator.step_simulation (H0 := flat_libm) sim 0 rainy_tape).1.1)
  = 5%nat.
Proof.
  intros sim.
  destruct (step_result_within_bounds (H0 := flat_libm) sim 0 rainy_tape)
    as (_ & _ & Hlen & _).
  - cbn. lia.
  - rewrite Hlen. reflexivity.
Defined.

(** ** The reference policy ([optimal_strategy.py]) *)

Module OptimalStrategy.

(** [CONFIG['plants'][config_key]] for the class name of the plant; the
    five class names are all in [plant_config_map]. *)
Definition plant_config (CONFIG : Config.t) (plant_type : Species) : Config.plant :=
  match plant_type with
  | Lettuce => Config.lettuce CONFIG
  | Spinach => Config.spinach CONFIG
  | Radish => Config.radish CONFIG
  | SwissChard => Config.swiss_chard CONFIG
  | Nasturtium => Config.nasturtium CONFIG
  end.

(** The moisture threshold [optimal_should_water] compares with. *)
Definition water_threshold (CONFIG : Config.t) (state : Observation.t) : Q :=
  let plant_status := Observation.plant_status state in
  let optimal_threshold :=
    Config.soil_threshold (plant_config CONFIG (Observation.plant_type state)) in
  match Observation.plant_type state with
  | Nasturtium =>
      if Qle_bool (Config.flower_stage_day (Config.nasturtium CONFIG))
                  (inject_Z (PlantStatus.days_alive plant_status))
      then Config.flower_stage_soil_threshold (Config.nasturtium CONFIG)
      else optimal_threshold
  | _ => optimal_threshold
  end.

(** [optimal_should_water(state)]; [None] is an exception: the
    [IndexError] of [state["sensor_history"][-1]] on an empty history,
    or the [TypeError] of subtracting a missing value. *)
Definition optimal_should_water (CONFIG : Config.t) (state : Observation.t)
  : option bool :=
  let sensor_data := Observation.sensor_data state in
  let plant_status := Observation.plant_status state in
  match SensorReading.soil_moisture sensor_data with
  | None => Some false
  | Some moisture =>
      let optimal_threshold := water_threshold CONFIG state in
      if Qle_bool (PlantStatus.health plant_status) 0 then Some false
      else
        if Observation.Rain state then
          match last (Observation.sensor_history state) with
          | None => None
          | Some entry =>
              match SensorHistoryEntry.soil_moisture entry with
              | None => None
              | Some previous =>
                  if Qgt_bool (Qabs (moisture - previous)) 0.05
                  then Some false
                  else Some (Qlt_bool moisture optimal_threshold)
              end
          end
        else Some (Qlt_bool moisture optimal_threshold)
  end.

(** [optimal_should_fertilize(state)] *)
Definition optimal_should_fertilize (CONFIG : Config.t) (state : Observation.t)
  : option bool :=
  let sensor_data := Observation.sensor_data state in
  let plant_status := Observation.plant_status state in
  match SensorReading.nutrient_level sensor_data with
  | None => Some false
  | Some nutrients =>
      let optimal_threshold :=
        Config.nutrient_threshold
          (plant_config CONFIG (Observation.plant_type state)) in
      if Qle_bool (PlantStatus.health plant_status) 0 then Some false
      else
        if Observation.Rain state then
          match last (Observation.sensor_history state) with
          | None => None
          | Some entry =>
              match SensorHistoryEntry.nutrient_level entry with
              | None => None
              | Some previous =>
                  if Qgt_bool (Qabs (nutrients - previous)) 0.05
                  then Some false
                  else Some (Qlt_bool nutrients optimal_threshold)
              end
          end
        else Some (Qlt_bool nutrients optimal_threshold)
  end.

End OptimalStrategy.

(** The reference watering policy answers no for a missing moisture
    reading and for a plant without health; it waters only below the
    threshold of the species (the flowering one for a nasturtium that
    reached its flowering day); and it raises exactly when the reading
    is there, the plant is healthy, it rains, and the history is empty
    or its last entry has no moisture value. *)
Theorem optimal_watering_cases CONFIG state :
  let answer := OptimalStrategy.optimal_should_water CONFIG state in
  let reading := SensorReading.soil_moisture (Observation.sensor_data state) in
  let health := PlantStatus.health (Observation.plant_status state) in
  (reading = None -> answer = Some false)
  /\ (health <= 0 -> answer = Some false)
  /\ (answer = Some true ->
      exists moisture,
        reading = Some moisture /\ 0 < health
        /\ moisture < OptimalStrategy.water_threshold CONFIG state)
  /\ (answer = None <->
      reading <> None /\ 0 < health /\ Observation.Rain state = true
      /\ (forall entry previous,
             last (Observation.sensor_history state) = Some entry ->
             SensorHistoryEntry.soil_moisture entry <> Some previous)).
Proof.
  intros answer reading health. subst answer reading health.
  unfold OptimalStrategy.optimal_should_water. lazy zeta.
  destruct (SensorReading.soil_moisture (Observation.sensor_data state))
    as [moisture |].
  2: { repeat split; try discriminate; try reflexivity.
       intros (Hne & _). contradiction. }
  destruct (Qle_bool (PlantStatus.health (Observation.plant_status state)) 0)
    eqn:Hhealth.
  { apply Qle_bool_iff in Hhealth. repeat split; try discriminate; try reflexivity.
    intros (_ & Hpos & _). lra. }
  apply Qle_bool_false_iff in Hhealth.
  destruct (Observation.Rain state).
  2: { split; [discriminate |]. split; [intros; lra |]. split.
       - intros [= Hlt]. apply Qlt_bool_iff in Hlt. eauto.
       - split; [discriminate |]. intros (_ & _ & Hrain & _). discriminate. }
  destruct (last (Observation.sensor_history state)) as [entry |].
  2: { split; [discriminate |]. split; [intros; lra |]. split; [discriminate |].
       split; [intros _ | reflexivity].
       repeat split; try discriminate; try assumption. }
  destruct (SensorHistoryEntry.soil_moisture entry) as [previous |] eqn:Hprev.
  2: { split; [discriminate |]. split; [intros; lra |]. split; [discriminate |].
       split; [intros _ | reflexivity].
       repeat split; try discriminate; try assumption.
       intros entry' previous' [= <-]. congruence. }
  destruct (Qgt_bool (Qabs (moisture - previous)) 0.05).
  - split; [discriminate |]. split; [intros; lra |]. split; [discriminate |].
    split; [discriminate |]. intros (_ & _ & _ & Hlast).
    exfalso. exact (Hlast entry previous eq_refl Hprev).
  - split; [discriminate |]. split; [intros; lra |]. split.
    + intros [= Hlt]. apply Qlt_bool_iff in Hlt. eauto.
    + split; [discriminate |]. intros (_ & _ & _ & Hlast).
      exfalso. exact (Hlast entry previous eq_refl Hprev).
Qed.

Lemma optimal_policy_idle_pot CONFIG self readings w pot_id :
  GardenSimulator.should_water self = OptimalStrategy.optimal_should_water CONFIG ->
  GardenSimulator.should_fertilize self
  = OptimalStrategy.optimal_should_fertilize CONFIG ->
  StateManager.get_sensor_history (GardenSimulator.state_manager self) pot_id = [] ->
  WeatherState.is_raining w = true ->
  GardenSimulator.decide_pot self readings w (Decisions.mk [] []) pot_id
  = Decisions.mk [] [].
Proof.
  intros Hsw Hsf Hhist Hrain. unfold GardenSimulator.decide_pot.
  destruct (Readings.pots readings !! pot_id) as [reading |]; [| reflexivity].
  destruct (GardenSimulator.plants self !! pot_id) as [plant |]; [| reflexivity].
  lazy zeta. rewrite Hsw, Hsf, Hhist, Hrain.
  unfold OptimalStrategy.optimal_should_water,
    OptimalStrategy.optimal_should_fertilize.
  lazy zeta.
  cbn [Observation.sensor_data Observation.plant_status Observation.Rain
       Observation.sensor_history last].
  destruct (SensorReading.soil_moisture reading);
    destruct (SensorReading.nutrient_level reading);
    destruct (Qle_bool (PlantStatus.health (Plant.get_status plant)) 0);
    reflexivity.
Qed.

(** On a rainy step without any recorded sensor history (the first step
    of a run) the reference policy requests nothing for any pot: where
    it does not answer no, its look at the last history entry raises,
    and the step treats that as no action. *)
Theorem optimal_policy_idle_on_rainy_first_step CONFIG self readings w :
  GardenSimulator.should_water self = OptimalStrategy.optimal_should_water CONFIG ->
  GardenSimulator.should_fertilize self
  = OptimalStrategy.optimal_should_fertilize CONFIG ->
  (forall pot_id,
      StateManager.get_sensor_history (GardenSimulator.state_manager self) pot_id
      = []) ->
  WeatherState.is_raining w = true ->
  GardenSimulator._make_student_decisions_with_history self readings w
  = Decisions.mk [] [].
Proof.
  intros Hsw Hsf Hhist Hrain.
  unfold GardenSimulator._make_student_decisions_with_history.
  induction (seq 0 5) as [| pot rest IH]; cbn [fold_left]; [reflexivity |].
  rewrite (optimal_policy_idle_pot CONFIG) by auto. exact IH.
Qed.

Lemma optimal_policy_idle_on_rainy_first_step_witness :
  let sim :=
    GardenSimulator.register_student_functions
      (GardenSimulator.init sample_config sample_config)
      (OptimalStrategy.optimal_should_water sample_config)
      (OptimalStrategy.optimal_should_fertilize sample_config) in
  let rain := WeatherState.mk 12 true 8 0%Z in
  GardenSimulator._make_student_decisions_with_history
    sim (Readings.mk (map (exact_reading rain 0) (GardenSimulator.plants sim))
                     (SensorReading.mk None None (Some 12) 0%Z))
    rain
  = Decisions.mk [] [].
Proof.
  intros sim rain.
  apply (optimal_policy_idle_on_rainy_first_step sample_config sim).
  - reflexivity.
  - reflexivity.
  - intros pot_id. unfold StateManager.get_sensor_history. cbn.
    rewrite lookup_empty. reflexivity.
  - reflexivity.
Defined.
